(** * Sideband filter driver (filter_sideband.c): control-device lifecycle

    The driver keeps every filter device object in the global collection
    [FilterDeviceCollection], guarded by the wait lock
    [FilterDeviceCollectionLock], and owns one global control device
    [ControlDevice].  The callbacks of the driver are embedded as programs
    over the framework (WDF) calls they make: a program is a tree whose
    nodes are framework calls and whose branches are indexed by the value
    the framework returns.  One interpreter runs a callback to completion
    (sequential delivery of events), a second one interleaves the calls of
    several callbacks (concurrent delivery). *)

From Stdlib Require Import ZArith String List Bool Lia.
From stdpp Require Import base option list gmap strings.

Local Open Scope Z_scope.
Local Open Scope string_scope.
Local Open Scope list_scope.

(** ** Framework types *)

Definition NTSTATUS := Z.
Definition ULONG := Z.
Definition WDFDEVICE := nat.
Definition WDFOBJECT := nat.
Definition WDFDRIVER := nat.
Definition WDFQUEUE := nat.
Definition WDFREQUEST := nat.
Definition PWDFDEVICE_INIT := nat.

Definition STATUS_SUCCESS : NTSTATUS := 0.
(* 0xC000009A as a signed 32-bit LONG *)
Definition STATUS_INSUFFICIENT_RESOURCES : NTSTATUS := -1073741670.
(* 0xC0000001 as a signed 32-bit LONG *)
Definition STATUS_UNSUCCESSFUL : NTSTATUS := -1073741823.
(* 0xC0000035 as a signed 32-bit LONG *)
Definition STATUS_OBJECT_NAME_COLLISION : NTSTATUS := -1073741771.

(* #define NT_SUCCESS(Status) (((NTSTATUS)(Status)) >= 0) *)
Definition NT_SUCCESS (Status : NTSTATUS) : bool := (0 <=? Status)%Z.

(** Modelled from the spec: filter.h is not part of the sources; the two
    device names are the ones quoted beside their use in
    FilterCreateControlDevice, the two context types are the ones named
    in the WDF_OBJECT_ATTRIBUTES_INIT_CONTEXT_TYPE calls, and the filter
    extension holds the identifying tag [SerialNo]. *)
Definition NTDEVICE_NAME_STRING : string := "\Device\ToasterFilter".
Definition SYMBOLIC_NAME_STRING : string := "\DosDevices\ToasterFilter".

Inductive context_type := FILTER_EXTENSION | CONTROL_DEVICE_EXTENSION.

Inductive callback :=
| FilterEvtDeviceContextCleanup_callback
| FilterEvtIoDeviceControl_callback.

Record WDF_OBJECT_ATTRIBUTES := {
  ContextTypeInfo : context_type;
  EvtCleanupCallback : option callback }.

Definition WDF_OBJECT_ATTRIBUTES_INIT_CONTEXT_TYPE (t : context_type)
  : WDF_OBJECT_ATTRIBUTES :=
  {| ContextTypeInfo := t; EvtCleanupCallback := None |}.

Inductive WDF_IO_QUEUE_DISPATCH_TYPE :=
| WdfIoQueueDispatchSequential
| WdfIoQueueDispatchParallel.

Record WDF_IO_QUEUE_CONFIG := {
  DispatchType : WDF_IO_QUEUE_DISPATCH_TYPE;
  DefaultQueue : bool;
  EvtIoDeviceControl : option callback }.

Definition WDF_IO_QUEUE_CONFIG_INIT_DEFAULT_QUEUE
  (t : WDF_IO_QUEUE_DISPATCH_TYPE) : WDF_IO_QUEUE_CONFIG :=
  {| DispatchType := t; DefaultQueue := true; EvtIoDeviceControl := None |}.

Inductive security_descriptor :=
| SDDL_DEVOBJ_SYS_ALL_ADM_RWX_WORLD_RW_RES_R.

Inductive DEVICE_REGISTRY_PROPERTY := DevicePropertyUINumber.

(** ** Framework calls

    [wdf_call R] is a call that gives back a value of type [R].  An out
    parameter is part of the returned value: [None] where the framework
    leaves the parameter untouched.  The two accesses to the global
    [ControlDevice] and the accesses to the [SerialNo] field of a filter
    extension are calls as well, so that they appear in traces. *)

Inductive wdf_call : Type -> Type :=
| WdfWaitLockAcquire : wdf_call unit
| WdfWaitLockRelease : wdf_call unit
| WdfFdoInitQueryProperty (DeviceInit : PWDFDEVICE_INIT)
    (p : DEVICE_REGISTRY_PROPERTY) : wdf_call (NTSTATUS * option ULONG)
| WdfFdoInitSetFilter (DeviceInit : PWDFDEVICE_INIT) : wdf_call unit
| WdfDeviceCreate (DeviceInit : PWDFDEVICE_INIT)
    (attrs : WDF_OBJECT_ATTRIBUTES)
    : wdf_call (NTSTATUS * option PWDFDEVICE_INIT * option WDFDEVICE)
| FilterGetData_set_SerialNo (device : WDFDEVICE) (v : option ULONG)
    : wdf_call unit
| FilterGetData_SerialNo (device : option WDFDEVICE)
    : wdf_call (option ULONG)
| WdfCollectionAdd (item : WDFOBJECT) : wdf_call NTSTATUS
| WdfCollectionGetCount : wdf_call nat
| WdfCollectionGetItem (i : nat) : wdf_call (option WDFOBJECT)
| WdfCollectionRemove (item : WDFOBJECT) : wdf_call unit
| get_ControlDevice : wdf_call (option WDFDEVICE)
| set_ControlDevice (v : option WDFDEVICE) : wdf_call unit
| WdfDeviceGetDriver (device : WDFDEVICE) : wdf_call WDFDRIVER
| WdfControlDeviceInitAllocate (driver : WDFDRIVER)
    (sddl : security_descriptor) : wdf_call (option PWDFDEVICE_INIT)
| WdfDeviceInitSetExclusive (DeviceInit : PWDFDEVICE_INIT) (b : bool)
    : wdf_call unit
| WdfDeviceInitAssignName (DeviceInit : PWDFDEVICE_INIT) (name : string)
    : wdf_call NTSTATUS
| WdfDeviceCreateSymbolicLink (device : WDFDEVICE) (name : string)
    : wdf_call NTSTATUS
| WdfIoQueueCreate (device : WDFDEVICE) (config : WDF_IO_QUEUE_CONFIG)
    : wdf_call (NTSTATUS * option WDFQUEUE)
| WdfControlFinishInitializing (device : WDFDEVICE) : wdf_call unit
| WdfDeviceInitFree (DeviceInit : PWDFDEVICE_INIT) : wdf_call unit
| WdfObjectDelete (object : WDFOBJECT) : wdf_call unit
| WdfRequestCompleteWithInformation (Request : WDFREQUEST)
    (Status : NTSTATUS) (Information : Z) : wdf_call unit
| KdPrint (format : string) (args : list (option Z)) : wdf_call unit.

(** ** Programs *)

Inductive prog (A : Type) : Type :=
| Ret (a : A)
| Vis {R : Type} (c : wdf_call R) (k : R -> prog A).
Arguments Ret {A} a.
Arguments Vis {A R} c k.

Fixpoint bind {A B : Type} (t : prog A) (f : A -> prog B) : prog B :=
  match t with
  | Ret a => f a
  | Vis c k => Vis c (fun r => bind (k r) f)
  end.

Definition call {R : Type} (c : wdf_call R) : prog R := Vis c Ret.

#[global] Instance prog_ret : MRet prog := @Ret.
#[global] Instance prog_bind : MBind prog := fun A B f t => bind t f.

(* for (i = from; i < from + n; i++) body(i) *)
Fixpoint for_loop (n : nat) (i : nat) (body : nat -> prog unit) : prog unit :=
  match n with
  | O => Ret tt
  | S n' => bind (body i) (fun _ => for_loop n' (S i) body)
  end.

(* An out parameter keeps its old value unless the callee wrote it. *)
Definition out_param {A : Type} (old written : option A) : option A :=
  match written with
  | Some v => Some v
  | None => old
  end.

(** ** The driver's callbacks *)

Module Driver.

(* FilterDeleteControlDevice, lines 521-550 *)
Definition FilterDeleteControlDevice (Device : WDFDEVICE) : prog unit :=
  call (KdPrint "Deleting Control Device\n" []);;
  cd ← call get_ControlDevice;
  match cd with
  | Some c =>
      call (WdfObjectDelete c);;
      call (set_ControlDevice None)
  | None => Ret tt
  end.

(* The code at the label Error of FilterCreateControlDevice, lines 501-516 *)
Definition FilterCreateControlDevice_Error
  (pInit : option PWDFDEVICE_INIT) (controlDevice : option WDFDEVICE)
  (status : NTSTATUS) : prog NTSTATUS :=
  match pInit with
  | Some p => call (WdfDeviceInitFree p)
  | None => Ret tt
  end;;
  match controlDevice with
  | Some c => call (WdfObjectDelete c)
  | None => Ret tt
  end;;
  Ret status.

(* FilterCreateControlDevice, lines 337-517 *)
Definition FilterCreateControlDevice (Device : WDFDEVICE) : prog NTSTATUS :=
  let pInit : option PWDFDEVICE_INIT := None in
  let controlDevice : option WDFDEVICE := None in
  let bCreate := false in
  let ntDeviceName := NTDEVICE_NAME_STRING in
  let symbolicLinkName := SYMBOLIC_NAME_STRING in
  call WdfWaitLockAcquire;;
  count ← call WdfCollectionGetCount;
  let bCreate := if Nat.eqb count 1 then true else bCreate in
  call WdfWaitLockRelease;;
  if negb bCreate then Ret STATUS_SUCCESS else
  call (KdPrint "Creating Control Device\n" []);;
  driver ← call (WdfDeviceGetDriver Device);
  pInit ← call (WdfControlDeviceInitAllocate driver
                  SDDL_DEVOBJ_SYS_ALL_ADM_RWX_WORLD_RW_RES_R);
  match pInit with
  | None =>
      let status := STATUS_INSUFFICIENT_RESOURCES in
      FilterCreateControlDevice_Error pInit controlDevice status
  | Some p =>
      call (WdfDeviceInitSetExclusive p false);;
      status ← call (WdfDeviceInitAssignName p ntDeviceName);
      if negb (NT_SUCCESS status)
      then FilterCreateControlDevice_Error pInit controlDevice status else
      let controlAttributes :=
        WDF_OBJECT_ATTRIBUTES_INIT_CONTEXT_TYPE CONTROL_DEVICE_EXTENSION in
      '(status, pInit', created) ← call (WdfDeviceCreate p controlAttributes);
      let pInit := pInit' in
      let controlDevice := out_param controlDevice created in
      if negb (NT_SUCCESS status)
      then FilterCreateControlDevice_Error pInit controlDevice status else
      match controlDevice with
      | None => (* not reached: a successful WdfDeviceCreate writes the handle *)
          FilterCreateControlDevice_Error pInit controlDevice status
      | Some cdev =>
          status ← call (WdfDeviceCreateSymbolicLink cdev symbolicLinkName);
          if negb (NT_SUCCESS status)
          then FilterCreateControlDevice_Error pInit controlDevice status else
          let ioQueueConfig :=
            WDF_IO_QUEUE_CONFIG_INIT_DEFAULT_QUEUE WdfIoQueueDispatchSequential in
          let ioQueueConfig :=
            {| DispatchType := DispatchType ioQueueConfig;
               DefaultQueue := DefaultQueue ioQueueConfig;
               EvtIoDeviceControl := Some FilterEvtIoDeviceControl_callback |} in
          '(status, queue) ← call (WdfIoQueueCreate cdev ioQueueConfig);
          if negb (NT_SUCCESS status)
          then FilterCreateControlDevice_Error pInit controlDevice status else
          call (WdfControlFinishInitializing cdev);;
          call (set_ControlDevice controlDevice);;
          Ret STATUS_SUCCESS
      end
  end.

(* FilterEvtDeviceAdd, lines 157-275 *)
Definition FilterEvtDeviceAdd (Driver : WDFDRIVER) (DeviceInit : PWDFDEVICE_INIT)
  : prog NTSTATUS :=
  let serialNo : option ULONG := None in
  '(status, written) ← call (WdfFdoInitQueryProperty DeviceInit
                               DevicePropertyUINumber);
  let serialNo := out_param serialNo written in
  (if negb (NT_SUCCESS status)
   then call (KdPrint "Failed to get the property of PDO: 0x%p\n"
                [Some (Z.of_nat DeviceInit)])
   else Ret tt);;
  call (WdfFdoInitSetFilter DeviceInit);;
  let deviceAttributes :=
    WDF_OBJECT_ATTRIBUTES_INIT_CONTEXT_TYPE FILTER_EXTENSION in
  let deviceAttributes :=
    {| ContextTypeInfo := ContextTypeInfo deviceAttributes;
       EvtCleanupCallback := Some FilterEvtDeviceContextCleanup_callback |} in
  '(status, DeviceInit', created) ←
     call (WdfDeviceCreate DeviceInit deviceAttributes);
  if negb (NT_SUCCESS status)
  then
    call (KdPrint "WdfDeviceCreate failed with status code 0x%x\n"
            [Some status]);;
    Ret status
  else
  match created with
  | None => Ret status (* not reached: success writes the handle *)
  | Some device =>
      call (FilterGetData_set_SerialNo device serialNo);;
      call WdfWaitLockAcquire;;
      status ← call (WdfCollectionAdd device);
      (if negb (NT_SUCCESS status)
       then call (KdPrint "WdfCollectionAdd failed with status code 0x%x\n"
                    [Some status])
       else Ret tt);;
      call WdfWaitLockRelease;;
      status ← FilterCreateControlDevice device;
      if negb (NT_SUCCESS status)
      then
        call (KdPrint "FilterCreateControlDevice failed with status 0x%x\n"
                [Some status]);;
        let status := STATUS_SUCCESS in
        Ret status
      else Ret status
  end.

(* FilterEvtDeviceContextCleanup, lines 281-330 *)
Definition FilterEvtDeviceContextCleanup (Device : WDFOBJECT) : prog unit :=
  call (KdPrint "Entered FilterEvtDeviceContextCleanup\n" []);;
  call WdfWaitLockAcquire;;
  count ← call WdfCollectionGetCount;
  (if Nat.eqb count 1
   then FilterDeleteControlDevice Device
   else Ret tt);;
  call (WdfCollectionRemove Device);;
  call WdfWaitLockRelease.

(* FilterEvtIoDeviceControl, lines 558-621 *)
Definition FilterEvtIoDeviceControl (Queue : WDFQUEUE) (Request : WDFREQUEST)
  (OutputBufferLength InputBufferLength : Z) (IoControlCode : ULONG)
  : prog unit :=
  call (KdPrint "Ioctl recieved into filter control object.\n" []);;
  call WdfWaitLockAcquire;;
  noItems ← call WdfCollectionGetCount;
  for_loop noItems 0 (fun i =>
    hFilterDevice ← call (WdfCollectionGetItem i);
    SerialNo ← call (FilterGetData_SerialNo hFilterDevice);
    call (KdPrint "Serial No: %d\n" [SerialNo]));;
  call WdfWaitLockRelease;;
  call (WdfRequestCompleteWithInformation Request STATUS_SUCCESS 0).

End Driver.

(** ** State: the driver's globals and the framework's objects *)

Record device_init := {
  init_control : bool;          (* allocated by WdfControlDeviceInitAllocate *)
  init_filter : bool;           (* WdfFdoInitSetFilter was called *)
  init_exclusive : bool;
  init_name : option string }.

Record device_object := {
  dev_attributes : WDF_OBJECT_ATTRIBUTES;
  dev_SerialNo : option ULONG;  (* None: the field holds no defined value *)
  dev_name : option string;
  dev_symlink : option string;
  dev_queue : option WDF_IO_QUEUE_CONFIG;
  dev_initializing : bool }.    (* control device not yet finished *)

Record state := {
  FilterDeviceCollection : list WDFOBJECT;
  FilterDeviceCollectionLock : option nat;   (* the thread that holds it *)
  ControlDevice : option WDFDEVICE;
  fw_next : nat;                              (* next fresh handle *)
  fw_inits : gmap nat device_init;            (* live WDFDEVICE_INIT *)
  fw_devices : gmap nat device_object;        (* live device objects *)
  fw_completed : list (WDFREQUEST * NTSTATUS * Z) }.

Definition with_collection (l : list WDFOBJECT) (s : state) : state :=
  {| FilterDeviceCollection := l;
     FilterDeviceCollectionLock := FilterDeviceCollectionLock s;
     ControlDevice := ControlDevice s; fw_next := fw_next s;
     fw_inits := fw_inits s; fw_devices := fw_devices s;
     fw_completed := fw_completed s |}.

Definition with_lock (o : option nat) (s : state) : state :=
  {| FilterDeviceCollection := FilterDeviceCollection s;
     FilterDeviceCollectionLock := o;
     ControlDevice := ControlDevice s; fw_next := fw_next s;
     fw_inits := fw_inits s; fw_devices := fw_devices s;
     fw_completed := fw_completed s |}.

Definition with_ControlDevice (c : option WDFDEVICE) (s : state) : state :=
  {| FilterDeviceCollection := FilterDeviceCollection s;
     FilterDeviceCollectionLock := FilterDeviceCollectionLock s;
     ControlDevice := c; fw_next := fw_next s;
     fw_inits := fw_inits s; fw_devices := fw_devices s;
     fw_completed := fw_completed s |}.

Definition with_next (n : nat) (s : state) : state :=
  {| FilterDeviceCollection := FilterDeviceCollection s;
     FilterDeviceCollectionLock := FilterDeviceCollectionLock s;
     ControlDevice := ControlDevice s; fw_next := n;
     fw_inits := fw_inits s; fw_devices := fw_devices s;
     fw_completed := fw_completed s |}.

Definition with_inits (m : gmap nat device_init) (s : state) : state :=
  {| FilterDeviceCollection := FilterDeviceCollection s;
     FilterDeviceCollectionLock := FilterDeviceCollectionLock s;
     ControlDevice := ControlDevice s; fw_next := fw_next s;
     fw_inits := m; fw_devices := fw_devices s;
     fw_completed := fw_completed s |}.

Definition with_devices (m : gmap nat device_object) (s : state) : state :=
  {| FilterDeviceCollection := FilterDeviceCollection s;
     FilterDeviceCollectionLock := FilterDeviceCollectionLock s;
     ControlDevice := ControlDevice s; fw_next := fw_next s;
     fw_inits := fw_inits s; fw_devices := m;
     fw_completed := fw_completed s |}.

Definition with_completed (l : list (WDFREQUEST * NTSTATUS * Z)) (s : state)
  : state :=
  {| FilterDeviceCollection := FilterDeviceCollection s;
     FilterDeviceCollectionLock := FilterDeviceCollectionLock s;
     ControlDevice := ControlDevice s; fw_next := fw_next s;
     fw_inits := fw_inits s; fw_devices := fw_devices s;
     fw_completed := l |}.

(* The state DriverEntry leaves behind when it succeeds: an empty
   collection, a free lock, ControlDevice = NULL. *)
Definition initial_state : state :=
  {| FilterDeviceCollection := [];
     FilterDeviceCollectionLock := None;
     ControlDevice := None; fw_next := 1;
     fw_inits := ∅; fw_devices := ∅; fw_completed := [] |}.

(* WdfCollectionRemove takes out the first occurrence of the item and
   leaves the collection alone when the item is not in it. *)
Fixpoint collection_remove (item : WDFOBJECT) (l : list WDFOBJECT)
  : list WDFOBJECT :=
  match l with
  | [] => []
  | x :: l' => if Nat.eqb x item then l' else x :: collection_remove item l'
  end.

(** ** The framework's side of a call

    What the host decides (whether a fallible call succeeds, which status
    it fails with, which UINumber the bus driver reports) is an [oracle],
    one per call.  A call is stuck ([None]) when a thread waits for a lock
    that is held, releases a lock it does not hold, or reads through a
    NULL device handle.

    The framework does what its documentation says: handles are fresh; a
    failing call writes none of its out parameters; WdfDeviceCreate, when
    it succeeds, takes the WDFDEVICE_INIT over and sets the caller's
    pointer to NULL; WdfCollectionAdd appends, so that the index of an
    item is its rank of registration; WdfCollectionGetItem gives NULL
    past the end; WdfObjectDelete of a device releases its symbolic link
    and its queue with it. *)

Record oracle := { o_status : NTSTATUS; o_value : ULONG }.

Definition ok : oracle := {| o_status := STATUS_SUCCESS; o_value := 0 |}.
Definition failing (st : NTSTATUS) : oracle := {| o_status := st; o_value := 0 |}.
Definition reporting (v : ULONG) : oracle :=
  {| o_status := STATUS_SUCCESS; o_value := v |}.

Definition new_device (attrs : WDF_OBJECT_ATTRIBUTES) (i : option device_init)
  : device_object :=
  {| dev_attributes := attrs; dev_SerialNo := None;
     dev_name := i ≫= init_name; dev_symlink := None; dev_queue := None;
     dev_initializing := from_option init_control false i |}.

Definition wdf_sem {R : Type} (tid : nat) (c : wdf_call R) (o : oracle)
  (s : state) : option (R * state) :=
  match c in wdf_call R return option (R * state) with
  | WdfWaitLockAcquire =>
      match FilterDeviceCollectionLock s with
      | None => Some (tt, with_lock (Some tid) s)
      | Some _ => None
      end
  | WdfWaitLockRelease =>
      match FilterDeviceCollectionLock s with
      | Some t => if Nat.eqb t tid then Some (tt, with_lock None s) else None
      | None => None
      end
  | WdfFdoInitQueryProperty _ _ =>
      if NT_SUCCESS (o_status o)
      then Some ((o_status o, Some (o_value o)), s)
      else Some ((o_status o, None), s)
  | WdfFdoInitSetFilter i =>
      Some (tt, with_inits
                  (alter (fun x =>
                     {| init_control := init_control x; init_filter := true;
                        init_exclusive := init_exclusive x;
                        init_name := init_name x |}) i (fw_inits s)) s)
  | WdfDeviceCreate i attrs =>
      if NT_SUCCESS (o_status o)
      then
        let d := fw_next s in
        Some ((o_status o, None, Some d),
              with_next (S d)
                (with_inits (delete i (fw_inits s))
                   (with_devices
                      (<[d := new_device attrs (fw_inits s !! i)]>
                         (fw_devices s)) s)))
      else Some ((o_status o, Some i, None), s)
  | FilterGetData_set_SerialNo d v =>
      Some (tt, with_devices
                  (alter (fun x =>
                     {| dev_attributes := dev_attributes x; dev_SerialNo := v;
                        dev_name := dev_name x; dev_symlink := dev_symlink x;
                        dev_queue := dev_queue x;
                        dev_initializing := dev_initializing x |})
                     d (fw_devices s)) s)
  | FilterGetData_SerialNo h =>
      match h with
      | Some d => Some (fw_devices s !! d ≫= dev_SerialNo, s)
      | None => None
      end
  | WdfCollectionAdd item =>
      if NT_SUCCESS (o_status o)
      then Some (o_status o,
                 with_collection (FilterDeviceCollection s ++ [item]) s)
      else Some (o_status o, s)
  | WdfCollectionGetCount => Some (length (FilterDeviceCollection s), s)
  | WdfCollectionGetItem i => Some (FilterDeviceCollection s !! i, s)
  | WdfCollectionRemove item =>
      Some (tt, with_collection
                  (collection_remove item (FilterDeviceCollection s)) s)
  | get_ControlDevice => Some (ControlDevice s, s)
  | set_ControlDevice v => Some (tt, with_ControlDevice v s)
  | WdfDeviceGetDriver _ => Some (O, s)
  | WdfControlDeviceInitAllocate _ _ =>
      if NT_SUCCESS (o_status o)
      then
        let p := fw_next s in
        Some (Some p,
              with_next (S p)
                (with_inits
                   (<[p := {| init_control := true; init_filter := false;
                              init_exclusive := false; init_name := None |}]>
                      (fw_inits s)) s))
      else Some (None, s)
  | WdfDeviceInitSetExclusive i b =>
      Some (tt, with_inits
                  (alter (fun x =>
                     {| init_control := init_control x;
                        init_filter := init_filter x; init_exclusive := b;
                        init_name := init_name x |}) i (fw_inits s)) s)
  | WdfDeviceInitAssignName i name =>
      if NT_SUCCESS (o_status o)
      then Some (o_status o,
                 with_inits
                   (alter (fun x =>
                      {| init_control := init_control x;
                         init_filter := init_filter x;
                         init_exclusive := init_exclusive x;
                         init_name := Some name |}) i (fw_inits s)) s)
      else Some (o_status o, s)
  | WdfDeviceCreateSymbolicLink d name =>
      if NT_SUCCESS (o_status o)
      then Some (o_status o,
                 with_devices
                   (alter (fun x =>
                      {| dev_attributes := dev_attributes x;
                         dev_SerialNo := dev_SerialNo x;
                         dev_name := dev_name x; dev_symlink := Some name;
                         dev_queue := dev_queue x;
                         dev_initializing := dev_initializing x |})
                      d (fw_devices s)) s)
      else Some (o_status o, s)
  | WdfIoQueueCreate d config =>
      if NT_SUCCESS (o_status o)
      then
        let q := fw_next s in
        Some ((o_status o, Some q),
              with_next (S q)
                (with_devices
                   (alter (fun x =>
                      {| dev_attributes := dev_attributes x;
                         dev_SerialNo := dev_SerialNo x;
                         dev_name := dev_name x; dev_symlink := dev_symlink x;
                         dev_queue := Some config;
                         dev_initializing := dev_initializing x |})
                      d (fw_devices s)) s))
      else Some ((o_status o, None), s)
  | WdfControlFinishInitializing d =>
      Some (tt, with_devices
                  (alter (fun x =>
                     {| dev_attributes := dev_attributes x;
                        dev_SerialNo := dev_SerialNo x;
                        dev_name := dev_name x; dev_symlink := dev_symlink x;
                        dev_queue := dev_queue x;
                        dev_initializing := false |})
                     d (fw_devices s)) s)
  | WdfDeviceInitFree i => Some (tt, with_inits (delete i (fw_inits s)) s)
  | WdfObjectDelete d => Some (tt, with_devices (delete d (fw_devices s)) s)
  | WdfRequestCompleteWithInformation r st info =>
      Some (tt, with_completed (fw_completed s ++ [(r, st, info)]) s)
  | KdPrint _ _ => Some (tt, s)
  end.

(** ** Traces and the sequential interpreter *)

Inductive event : Type :=
| Ev (R : Type) (c : wdf_call R) (r : R).
Arguments Ev {R} c r.

Definition trace := list event.

(* Runs a callback to completion on thread [tid]; the i-th call takes the
   i-th oracle, and [ok] once the list is used up. *)
Fixpoint run {A : Type} (tid : nat) (t : prog A) (os : list oracle) (s : state)
  : option (A * state * trace) :=
  match t with
  | Ret a => Some (a, s, [])
  | Vis c k =>
      match wdf_sem tid c (hd ok os) s with
      | None => None
      | Some (r, s') =>
          match run tid (k r) (tl os) s' with
          | None => None
          | Some (a, s'', tr) => Some (a, s'', Ev c r :: tr)
          end
      end
  end.

(** ** The host: sequential delivery of events

    The PnP manager hands FilterEvtDeviceAdd a WDFDEVICE_INIT it has
    allocated, deletes a filter device after running the cleanup callback
    registered in the device's attributes, and delivers a device-control
    request to the callback registered in the default queue of a
    control device that has finished initializing. *)

Definition fdo_init : device_init :=
  {| init_control := false; init_filter := false; init_exclusive := false;
     init_name := None |}.

Inductive host_event :=
| InstanceAppears (os : list oracle)
| InstanceDisappears (Device : WDFDEVICE)
| QueryArrives (target : WDFDEVICE) (Request : WDFREQUEST).

Definition has_cleanup (o : device_object) : bool :=
  match EvtCleanupCallback (dev_attributes o) with
  | Some FilterEvtDeviceContextCleanup_callback => true
  | _ => false
  end.

Definition accepts_ioctl (o : device_object) : bool :=
  negb (dev_initializing o) &&
  match dev_queue o with
  | Some q =>
      match EvtIoDeviceControl q with
      | Some FilterEvtIoDeviceControl_callback => true
      | _ => false
      end
  | None => false
  end.

Definition prepare_add (s : state) : PWDFDEVICE_INIT * state :=
  let i := fw_next s in
  (i, with_next (S i) (with_inits (<[i := fdo_init]> (fw_inits s)) s)).

Definition host_step (ev : host_event) (s : state) : option state :=
  match ev with
  | InstanceAppears os =>
      let '(i, s1) := prepare_add s in
      match run O (Driver.FilterEvtDeviceAdd O i) os s1 with
      | Some (_, s2, _) => Some (with_inits (delete i (fw_inits s2)) s2)
      | None => None
      end
  | InstanceDisappears Device =>
      match fw_devices s !! Device with
      | Some o =>
          if has_cleanup o then
            match run O (Driver.FilterEvtDeviceContextCleanup Device) [] s with
            | Some (_, s1, _) =>
                Some (with_devices (delete Device (fw_devices s1)) s1)
            | None => None
            end
          else None
      | None => None
      end
  | QueryArrives target Request =>
      match fw_devices s !! target with
      | Some o =>
          if accepts_ioctl o then
            match run O (Driver.FilterEvtIoDeviceControl target Request 0 0 0)
                    [] s with
            | Some (_, s1, _) => Some s1
            | None => None
            end
          else None
      | None => None
      end
  end.

Inductive reachable : state -> Prop :=
| reachable_initial : reachable initial_state
| reachable_step s ev s' :
    reachable s -> host_step ev s = Some s' -> reachable s'.

(* Runs a list of host events, one after the other. *)
Fixpoint host_run (evs : list host_event) (s : state) : option state :=
  match evs with
  | [] => Some s
  | ev :: evs' =>
      match host_step ev s with
      | Some s' => host_run evs' s'
      | None => None
      end
  end.

(** ** Observations on traces *)

Definition is_acquire (e : event) : bool :=
  match e with Ev WdfWaitLockAcquire _ => true | _ => false end.

Definition is_release (e : event) : bool :=
  match e with Ev WdfWaitLockRelease _ => true | _ => false end.

Definition is_set_ControlDevice (e : event) : bool :=
  match e with Ev (set_ControlDevice _) _ => true | _ => false end.

(* The creation protocol starts with the allocation of the
   initialization context. *)
Definition is_creation_start (e : event) : bool :=
  match e with Ev (WdfControlDeviceInitAllocate _ _) _ => true | _ => false end.

Definition is_control (attrs : WDF_OBJECT_ATTRIBUTES) : bool :=
  match ContextTypeInfo attrs with
  | CONTROL_DEVICE_EXTENSION => true
  | FILTER_EXTENSION => false
  end.

(* A step of the creation protocol that failed. *)
Definition creation_step_failed (e : event) : bool :=
  match e with
  | Ev c r =>
      match c in wdf_call R return R -> bool with
      | WdfControlDeviceInitAllocate _ _ =>
          fun r => match r with None => true | Some _ => false end
      | WdfDeviceInitAssignName _ _ => fun r => negb (NT_SUCCESS r)
      | WdfDeviceCreate _ attrs =>
          fun r => is_control attrs && negb (NT_SUCCESS (fst (fst r)))
      | WdfDeviceCreateSymbolicLink _ _ => fun r => negb (NT_SUCCESS r)
      | WdfIoQueueCreate _ _ => fun r => negb (NT_SUCCESS (fst r))
      | _ => fun _ => false
      end r
  end.

Definition query_failed (e : event) : bool :=
  match e with
  | Ev c r =>
      match c in wdf_call R return R -> bool with
      | WdfFdoInitQueryProperty _ _ => fun r => negb (NT_SUCCESS (fst r))
      | _ => fun _ => false
      end r
  end.

Definition collection_add_failed (e : event) : bool :=
  match e with
  | Ev c r =>
      match c in wdf_call R return R -> bool with
      | WdfCollectionAdd _ => fun r => negb (NT_SUCCESS r)
      | _ => fun _ => false
      end r
  end.

Definition filter_device_create_failed (e : event) : bool :=
  match e with
  | Ev c r =>
      match c in wdf_call R return R -> bool with
      | WdfDeviceCreate _ attrs =>
          fun r => negb (is_control attrs) && negb (NT_SUCCESS (fst (fst r)))
      | _ => fun _ => false
      end r
  end.

(* The handles the trace hands out. *)
Definition init_allocated (e : event) : list PWDFDEVICE_INIT :=
  match e with
  | Ev c r =>
      match c in wdf_call R return R -> list PWDFDEVICE_INIT with
      | WdfControlDeviceInitAllocate _ _ =>
          fun r => match r with Some p => [p] | None => [] end
      | _ => fun _ => []
      end r
  end.

Definition device_created (e : event) : list WDFDEVICE :=
  match e with
  | Ev c r =>
      match c in wdf_call R return R -> list WDFDEVICE with
      | WdfDeviceCreate _ _ =>
          fun r => match snd r with Some d => [d] | None => [] end
      | _ => fun _ => []
      end r
  end.

(* What KdPrint("Serial No: %d\n", ...) writes to the debug log. *)
Definition logged_SerialNo (e : event) : list (option ULONG) :=
  match e with
  | Ev c r =>
      match c in wdf_call R return list (option ULONG) with
      | KdPrint "Serial No: %d\n" [v] => [v]
      | _ => []
      end
  end.

Definition SerialNo_of (s : state) (d : WDFDEVICE) : option ULONG :=
  fw_devices s !! d ≫= dev_SerialNo.

(** ** States the examples start from *)

(* Two states the examples start from: one instance attached, and two. *)
Definition one_instance : state :=
  default initial_state (host_run [InstanceAppears [reporting 10]] initial_state).

Definition two_instances : state :=
  default initial_state
    (host_run [InstanceAppears [reporting 10]; InstanceAppears [reporting 20]]
       initial_state).

(** ** The trace of the cleanup callback *)

(* The calls FilterDeleteControlDevice makes from state [s]. *)
Definition delete_trace (s : state) : trace :=
  [Ev (KdPrint "Deleting Control Device\n" []) tt;
   Ev get_ControlDevice (ControlDevice s)] ++
  match ControlDevice s with
  | Some c => [Ev (WdfObjectDelete c) tt; Ev (set_ControlDevice None) tt]
  | None => []
  end.

Definition is_object_delete (e : event) : bool :=
  match e with Ev (WdfObjectDelete _) _ => true | _ => false end.

Definition is_lock_event (e : event) : bool := is_acquire e || is_release e.

(** ** The trace of the device-control callback *)

(* The calls of the loop of FilterEvtIoDeviceControl over the devices [l],
   the first of them at index [i]. *)
Fixpoint enumeration_trace (s : state) (i : nat) (l : list WDFOBJECT) : trace :=
  match l with
  | [] => []
  | d :: l' =>
      [Ev (WdfCollectionGetItem i) (Some d);
       Ev (FilterGetData_SerialNo (Some d)) (SerialNo_of s d);
       Ev (KdPrint "Serial No: %d\n" [SerialNo_of s d]) tt] ++
      enumeration_trace s (S i) l'
  end.

(* The requester receives the first [Information] bytes of its output
   buffer. *)
Definition response_payload (buffer : list Z) (Information : Z) : list Z :=
  take (Z.to_nat Information) buffer.

(** ** The trace of a successful creation *)

Definition control_queue_config : WDF_IO_QUEUE_CONFIG :=
  {| DispatchType := WdfIoQueueDispatchSequential; DefaultQueue := true;
     EvtIoDeviceControl := Some FilterEvtIoDeviceControl_callback |}.

(* The calls of a run of FilterCreateControlDevice in which every step of
   the creation protocol succeeds. *)
Definition creation_trace (Device : WDFDEVICE) (p : PWDFDEVICE_INIT)
  (c : WDFDEVICE) (q : WDFQUEUE) (st1 st2 st3 st4 : NTSTATUS) : trace :=
  [Ev WdfWaitLockAcquire tt;
   Ev WdfCollectionGetCount 1%nat;
   Ev WdfWaitLockRelease tt;
   Ev (KdPrint "Creating Control Device\n" []) tt;
   Ev (WdfDeviceGetDriver Device) O;
   Ev (WdfControlDeviceInitAllocate O
         SDDL_DEVOBJ_SYS_ALL_ADM_RWX_WORLD_RW_RES_R) (Some p);
   Ev (WdfDeviceInitSetExclusive p false) tt;
   Ev (WdfDeviceInitAssignName p NTDEVICE_NAME_STRING) st1;
   Ev (WdfDeviceCreate p
         (WDF_OBJECT_ATTRIBUTES_INIT_CONTEXT_TYPE CONTROL_DEVICE_EXTENSION))
      (st2, None, Some c);
   Ev (WdfDeviceCreateSymbolicLink c SYMBOLIC_NAME_STRING) st3;
   Ev (WdfIoQueueCreate c control_queue_config) (st4, Some q);
   Ev (WdfControlFinishInitializing c) tt;
   Ev (set_ControlDevice (Some c)) tt].

(* The device has a symbolic link, its default queue, and has been
   handed to WdfControlFinishInitializing. *)
Definition fully_initialized (s : state) (c : WDFDEVICE) : Prop :=
  exists o,
    fw_devices s !! c = Some o /\
    dev_initializing o = false /\
    dev_symlink o = Some SYMBOLIC_NAME_STRING /\
    dev_queue o = Some control_queue_config.

(** ** Scenarios of attachment *)

(* The state in which the PnP manager calls FilterEvtDeviceAdd for the
   first instance; the WDFDEVICE_INIT it passes has handle 1. *)
Definition first_attach : state := snd (prepare_add initial_state).

(* Scenario: every call succeeds up to WdfDeviceCreateSymbolicLink (the
   17th call), which fails. *)
Definition symbolic_link_fails : list oracle :=
  [reporting 10; ok; ok; ok; ok; ok; ok; ok; ok; ok; ok; ok; ok; ok; ok; ok;
   failing STATUS_OBJECT_NAME_COLLISION].

(* Scenario: the filter device is created, WdfCollectionAdd (the 6th
   call) fails. *)
Definition collection_add_fails : list oracle :=
  [reporting 10; ok; ok; ok; ok; failing STATUS_INSUFFICIENT_RESOURCES].

(* Scenario: the query of the UINumber fails, everything else succeeds. *)
Definition query_fails : list oracle := [failing STATUS_UNSUCCESSFUL].

(** ** The control device and the collection *)

Definition channel_exists (s : state) : Prop := is_Some (ControlDevice s).

Definition registry_count (s : state) : nat :=
  length (FilterDeviceCollection s).

(* What one host event does to the control device, as a function of the
   count of the collection. *)
Definition transition_ok (ev : host_event) (s s' : state) : Prop :=
  match ev with
  | InstanceAppears _ =>
      ControlDevice s' = ControlDevice s \/ registry_count s' = 1%nat
  | InstanceDisappears _ =>
      (registry_count s = 1%nat -> ControlDevice s' = None) /\
      (registry_count s <> 1%nat -> ControlDevice s' = ControlDevice s)
  | QueryArrives _ _ =>
      ControlDevice s' = ControlDevice s /\
      FilterDeviceCollection s' = FilterDeviceCollection s
  end.

(** ** Concurrent delivery (C2)

    Several callbacks run at once, one per thread; a step of the system is
    one framework call of one thread.  A thread that calls
    WdfWaitLockAcquire while the lock is held cannot step. *)

Record config := {
  cfg_state : state;
  cfg_pool : list (prog NTSTATUS);
  cfg_trace : list (nat * event) }.

Definition thread_step (tid : nat) (o : oracle) (cfg : config)
  : option config :=
  match cfg_pool cfg !! tid with
  | Some (Vis c k) =>
      match wdf_sem tid c o (cfg_state cfg) with
      | Some (r, s') =>
          Some {| cfg_state := s';
                  cfg_pool := <[tid := k r]> (cfg_pool cfg);
                  cfg_trace := cfg_trace cfg ++ [(tid, Ev c r)] |}
      | None => None
      end
  | _ => None
  end.

(* A schedule names, step by step, the thread that moves and what the
   host answers to its call. *)
Fixpoint schedule_run (sched : list (nat * oracle)) (cfg : config)
  : option config :=
  match sched with
  | [] => Some cfg
  | (tid, o) :: sched' =>
      match thread_step tid o cfg with
      | Some cfg' => schedule_run sched' cfg'
      | None => None
      end
  end.

Fixpoint count_if {A : Type} (f : A -> bool) (l : list A) : nat :=
  match l with
  | [] => O
  | x :: l' => ((if f x then 1 else 0) + count_if f l')%nat
  end.

(* The number of times the creation protocol was started. *)
Definition creations (tr : list (nat * event)) : nat :=
  count_if (fun e => is_creation_start (snd e)) tr.

Definition no_failed_registration (tr : list (nat * event)) : bool :=
  negb (existsb (fun e => collection_add_failed (snd e)) tr).

(* Instances appear at once: one FilterEvtDeviceAdd per WDFDEVICE_INIT. *)
Definition appearing (s : state) (inits : list PWDFDEVICE_INIT) : config :=
  {| cfg_state := s;
     cfg_pool := map (Driver.FilterEvtDeviceAdd O) inits;
     cfg_trace := [] |}.

(* Two instances appear from a count of zero; the WDFDEVICE_INITs the PnP
   manager passes have handles 1 and 2. *)
Definition two_appearing : config :=
  appearing (snd (prepare_add (snd (prepare_add initial_state))))
    [1%nat; 2%nat].

Definition steps (tid n : nat) : list (nat * oracle) := replicate n (tid, ok).

(* Both threads register their device (7 calls each), then both count. *)
Definition both_register_first : list (nat * oracle) :=
  steps 0 7 ++ steps 1 7 ++ steps 0 3 ++ steps 1 3.

(* The first thread runs to its end (20 calls), then the second (10). *)
Definition one_after_the_other : list (nat * oracle) :=
  steps 0 20 ++ steps 1 10.

(** *** Phases of a thread that attaches an instance *)

(* Calls that neither touch the collection nor start the creation
   protocol. *)
Definition quiet {R : Type} (c : wdf_call R) : bool :=
  match c with
  | WdfCollectionAdd _ | WdfCollectionRemove _ | WdfCollectionGetCount
  | WdfControlDeviceInitAllocate _ _ => false
  | _ => true
  end.

(* The thread has counted: it makes quiet calls only. *)
Fixpoint past_creation {A : Type} (t : prog A) : Prop :=
  match t with
  | Ret _ => True
  | Vis c k => quiet c = true /\ forall r, past_creation (k r)
  end.

(* The thread has counted 1: it starts the creation protocol at most
   once. *)
Fixpoint may_create {A : Type} (t : prog A) : Prop :=
  match t with
  | Ret _ => True
  | Vis c k =>
      match c in wdf_call R return (R -> prog A) -> Prop with
      | WdfControlDeviceInitAllocate _ _ =>
          fun k => forall r, past_creation (k r)
      | c' => fun k => quiet c' = true /\ forall r, may_create (k r)
      end k
  end.

(* The thread has registered its device: it will count, and go on to the
   creation protocol only if it counts 1. *)
Fixpoint checks {A : Type} (t : prog A) : Prop :=
  match t with
  | Ret _ => True
  | Vis c k =>
      match c in wdf_call R return (R -> prog A) -> Prop with
      | WdfCollectionGetCount =>
          fun k => forall n,
            if Nat.eqb n 1 then may_create (k n) else past_creation (k n)
      | c' => fun k => quiet c' = true /\ forall r, checks (k r)
      end k
  end.

(* The thread has not registered its device yet. *)
Fixpoint registers {A : Type} (t : prog A) : Prop :=
  match t with
  | Ret _ => True
  | Vis c k =>
      match c in wdf_call R return (R -> prog A) -> Prop with
      | WdfCollectionAdd _ => fun k => forall r, checks (k r)
      | c' => fun k => quiet c' = true /\ forall r, registers (k r)
      end k
  end.

Inductive phase := Registering | Checking | MayCreate | PastCreation.

Definition in_phase (p : phase) (t : prog NTSTATUS) : Prop :=
  match p with
  | Registering => registers t
  | Checking => checks t
  | MayCreate => may_create t
  | PastCreation => past_creation t
  end.

Definition registered (p : phase) : bool :=
  match p with Registering => false | _ => true end.

Definition checking (p : phase) : bool :=
  match p with Checking => true | _ => false end.

Definition creating (p : phase) : bool :=
  match p with MayCreate => true | _ => false end.

Definition counted (p : phase) : bool :=
  match p with MayCreate | PastCreation => true | _ => false end.

(* Every thread is in a phase; as long as no registration has failed, the
   collection holds one device per registered thread, at most one thread
   has started or may still start the creation protocol, and if there
   is one, some thread has counted. *)
Definition invariant (cfg : config) : Prop :=
  exists phases,
    Forall2 in_phase phases (cfg_pool cfg) /\
    (no_failed_registration (cfg_trace cfg) = true ->
     length (FilterDeviceCollection (cfg_state cfg))
       = count_if registered phases /\
     (creations (cfg_trace cfg) + count_if creating phases <= 1)%nat /\
     ((1 <= creations (cfg_trace cfg) + count_if creating phases)%nat ->
      (1 <= count_if counted phases)%nat)).

Definition sequential_outcome : config :=
  default two_appearing (schedule_run one_after_the_other two_appearing).

(* Thread 0 fails to register its device (its 6th call), thread 1
   registers, and both count 1: without the premise on WdfCollectionAdd
   the protocol can start twice. *)
Definition first_registration_fails : list (nat * oracle) :=
  steps 0 5 ++ [(O, failing STATUS_INSUFFICIENT_RESOURCES)] ++ steps 0 2 ++
  steps 1 7 ++ steps 0 6 ++ steps 1 6.

(* [before_first_creation] is the state in which the FilterEvtDeviceAdd
   of the first instance, its device (handle 2) registered, goes on to
   call FilterCreateControlDevice. *)
Definition before_first_creation : state :=
  cfg_state
    (default (appearing first_attach [1%nat])
       (schedule_run (steps 0 7) (appearing first_attach [1%nat]))).

(* A second instance appears with one instance attached, and its
   WdfCollectionAdd (the 6th call) fails: [before_second_creation] is the
   state in which its FilterEvtDeviceAdd goes on to call
   FilterCreateControlDevice, for the device of handle 7. *)
Definition second_attach : config :=
  appearing (snd (prepare_add one_instance)) [6%nat].

Definition registration_fails : list (nat * oracle) :=
  steps 0 5 ++ [(O, failing STATUS_INSUFFICIENT_RESOURCES)] ++ steps 0 2.

Definition before_second_creation : state :=
  cfg_state
    (default second_attach (schedule_run registration_fails second_attach)).

(** ** DriverEntry

    DriverEntry makes three fallible framework calls, none of which the
    callbacks make; it is embedded by explicit state passing over the
    globals it initializes.  A global handle is [None] until the
    framework has created the object. *)

Definition PDRIVER_OBJECT := nat.
Definition PUNICODE_STRING := nat.

Inductive driver_callback := FilterEvtDeviceAdd_callback.

Record WDF_DRIVER_CONFIG := { EvtDriverDeviceAdd : option driver_callback }.

Definition WDF_DRIVER_CONFIG_INIT (f : driver_callback) : WDF_DRIVER_CONFIG :=
  {| EvtDriverDeviceAdd := Some f |}.

Record driver_globals := {
  hDriver : option WDF_DRIVER_CONFIG;          (* the framework driver object *)
  collection_handle : option (list WDFOBJECT); (* FilterDeviceCollection *)
  lock_handle : option (option nat);           (* FilterDeviceCollectionLock *)
  ControlDevice_global : option WDFDEVICE }.   (* ControlDevice *)

(* Before DriverEntry: no framework object exists, and the static
   initializer has set ControlDevice to NULL (line 56). *)
Definition at_load : driver_globals :=
  {| hDriver := None; collection_handle := None; lock_handle := None;
     ControlDevice_global := None |}.

Inductive entry_event :=
| EntryKdPrint (format : string) (args : list (option Z))
| EntryWdfDriverCreate (status : NTSTATUS)
| EntryWdfCollectionCreate (status : NTSTATUS)
| EntryWdfWaitLockCreate (status : NTSTATUS).

(* The three framework calls of DriverEntry: each returns the status the
   host decides and creates its object when that status is a success. *)
Definition WdfDriverCreate (config : WDF_DRIVER_CONFIG) (o : oracle)
  (g : driver_globals) : NTSTATUS * driver_globals :=
  (o_status o,
   if NT_SUCCESS (o_status o)
   then {| hDriver := Some config; collection_handle := collection_handle g;
           lock_handle := lock_handle g;
           ControlDevice_global := ControlDevice_global g |}
   else g).

Definition WdfCollectionCreate (o : oracle) (g : driver_globals)
  : NTSTATUS * driver_globals :=
  (o_status o,
   if NT_SUCCESS (o_status o)
   then {| hDriver := hDriver g; collection_handle := Some [];
           lock_handle := lock_handle g;
           ControlDevice_global := ControlDevice_global g |}
   else g).

Definition WdfWaitLockCreate (o : oracle) (g : driver_globals)
  : NTSTATUS * driver_globals :=
  (o_status o,
   if NT_SUCCESS (o_status o)
   then {| hDriver := hDriver g; collection_handle := collection_handle g;
           lock_handle := Some None;
           ControlDevice_global := ControlDevice_global g |}
   else g).

(* DriverEntry, lines 64-153.  The oracles answer WdfDriverCreate,
   WdfCollectionCreate and WdfWaitLockCreate, in this order. *)
Definition DriverEntry (DriverObject : PDRIVER_OBJECT)
  (RegistryPath : PUNICODE_STRING) (o_driver o_collection o_lock : oracle)
  (g : driver_globals) : NTSTATUS * driver_globals * list entry_event :=
  let log :=
    [EntryKdPrint
       "Toaster SideBand Filter Driver Sample - Driver Framework Edition.\n"
       []] in
  let config := WDF_DRIVER_CONFIG_INIT FilterEvtDeviceAdd_callback in
  let '(status, g) := WdfDriverCreate config o_driver g in
  let log := log ++ [EntryWdfDriverCreate status] in
  let log :=
    if negb (NT_SUCCESS status)
    then log ++ [EntryKdPrint "WdfDriverCreate failed with status 0x%x\n"
                   [Some status]]
    else log in
  let '(status, g) := WdfCollectionCreate o_collection g in
  let log := log ++ [EntryWdfCollectionCreate status] in
  if negb (NT_SUCCESS status)
  then
    (status, g,
     log ++ [EntryKdPrint "WdfCollectionCreate failed with status 0x%x\n"
               [Some status]])
  else
  let '(status, g) := WdfWaitLockCreate o_lock g in
  let log := log ++ [EntryWdfWaitLockCreate status] in
  if negb (NT_SUCCESS status)
  then
    (status, g,
     log ++ [EntryKdPrint "WdfWaitLockCreate failed with status 0x%x\n"
               [Some status]])
  else (status, g, log).

(* The state the callbacks start from, once both the collection and the
   lock exist. *)
Definition ready (g : driver_globals) : option state :=
  match collection_handle g, lock_handle g with
  | Some l, Some k =>
      Some {| FilterDeviceCollection := l;
              FilterDeviceCollectionLock := k;
              ControlDevice := ControlDevice_global g; fw_next := 1;
              fw_inits := ∅; fw_devices := ∅; fw_completed := [] |}
  | _, _ => None
  end.

Definition is_lock_create (e : entry_event) : bool :=
  match e with EntryWdfWaitLockCreate _ => true | _ => false end.

(** ** Well-formed states *)

Definition live_filter (s : state) (d : WDFDEVICE) : Prop :=
  exists o, fw_devices s !! d = Some o /\ has_cleanup o = true.

Definition live_control (s : state) (c : WDFDEVICE) : Prop :=
  fully_initialized s c /\
  exists o, fw_devices s !! c = Some o /\ has_cleanup o = false.

(* The lock is free, handles in use are below the next fresh one, the
   collection holds live filter devices without repetition, and
   ControlDevice, when set, names a live control device that has
   finished initializing. *)
Definition well_formed (s : state) : Prop :=
  FilterDeviceCollectionLock s = None /\
  (forall d, is_Some (fw_devices s !! d) -> (d < fw_next s)%nat) /\
  NoDup (FilterDeviceCollection s) /\
  (forall d, d ∈ FilterDeviceCollection s -> live_filter s d) /\
  (forall c, ControlDevice s = Some c -> live_control s c).

(* The first instance fails to register (its device, of handle 2, stays
   out of the collection); the second registers and gets the control
   device created. *)
Definition unregistered_then_registered : state :=
  default initial_state
    (host_run [InstanceAppears collection_add_fails;
               InstanceAppears [reporting 20]] initial_state).

(* Scenario: WdfDeviceCreate of the filter device (the 3rd call) fails. *)
Definition device_create_fails : list oracle :=
  [reporting 10; ok; failing STATUS_INSUFFICIENT_RESOURCES].

(** ** Lock discipline *)

Inductive access := LockAcquire | LockRelease | CollectionAccess | OtherCall.

Definition access_of {R : Type} (c : wdf_call R) : access :=
  match c with
  | WdfWaitLockAcquire => LockAcquire
  | WdfWaitLockRelease => LockRelease
  | WdfCollectionAdd _ | WdfCollectionGetCount | WdfCollectionGetItem _
  | WdfCollectionRemove _ => CollectionAccess
  | _ => OtherCall
  end.

(* A program that starts with the lock [held] or not, touches the
   collection only while it holds the lock, acquires the lock only when it
   does not hold it, releases it only when it does, and ends with the
   lock held or not as [exit] says. *)
Fixpoint disciplined_to {A : Type} (exit held : bool) (t : prog A) : Prop :=
  match t with
  | Ret _ => held = exit
  | Vis c k =>
      match access_of c with
      | LockAcquire => held = false /\ forall r, disciplined_to exit true (k r)
      | LockRelease => held = true /\ forall r, disciplined_to exit false (k r)
      | CollectionAccess =>
          held = true /\ forall r, disciplined_to exit held (k r)
      | OtherCall => forall r, disciplined_to exit held (k r)
      end
  end.

Definition disciplined {A : Type} (t : prog A) : Prop :=
  disciplined_to false false t.

(* The callbacks the framework invokes, each on a thread of its own. *)
Inductive invocation :=
| InvokeDeviceAdd (Driver : WDFDRIVER) (DeviceInit : PWDFDEVICE_INIT)
| InvokeCleanup (Device : WDFOBJECT)
| InvokeIoDeviceControl (Queue : WDFQUEUE) (Request : WDFREQUEST)
    (OutputBufferLength InputBufferLength : Z) (IoControlCode : ULONG).

Definition thread_of (i : invocation) : prog NTSTATUS :=
  match i with
  | InvokeDeviceAdd Driver DeviceInit =>
      Driver.FilterEvtDeviceAdd Driver DeviceInit
  | InvokeCleanup Device =>
      bind (Driver.FilterEvtDeviceContextCleanup Device)
        (fun _ => Ret STATUS_SUCCESS)
  | InvokeIoDeviceControl Queue Request OutputBufferLength InputBufferLength
      IoControlCode =>
      bind (Driver.FilterEvtIoDeviceControl Queue Request OutputBufferLength
              InputBufferLength IoControlCode)
        (fun _ => Ret STATUS_SUCCESS)
  end.

Definition running (s : state) (l : list invocation) : config :=
  {| cfg_state := s; cfg_pool := map thread_of l; cfg_trace := [] |}.

(* What the lock must be for thread [tid] when its remaining program is
   [t]. *)
Definition lock_as_expected (s : state) (tid : nat) (t : prog NTSTATUS)
  : Prop :=
  match t with
  | Ret _ => FilterDeviceCollectionLock s <> Some tid
  | Vis c _ =>
      match access_of c with
      | CollectionAccess | LockRelease =>
          FilterDeviceCollectionLock s = Some tid
      | LockAcquire => FilterDeviceCollectionLock s <> Some tid
      | OtherCall => True
      end
  end.

(* A query arrives while an instance disappears and another appears. *)
Definition three_at_once : config :=
  running (snd (prepare_add two_instances))
    [InvokeCleanup 2%nat; InvokeIoDeviceControl 5%nat 9%nat 0 0 0;
     InvokeDeviceAdd O 8%nat].

Definition interleaved : list (nat * oracle) :=
  steps 2 4 ++ steps 0 1 ++ steps 1 1 ++ steps 2 3 ++ steps 0 2.

(* [in_range held t]: with [held = Some len] the thread holds the lock and
   the collection holds [len] items, with [held = None] it does not hold
   the lock.  Every index the program passes to WdfCollectionGetItem is
   below the length of the collection, and every handle whose context it
   reads is not NULL. *)
Fixpoint in_range {A : Type} (held : option nat) (t : prog A) : Prop :=
  match t with
  | Ret _ => True
  | Vis c k =>
      match c in wdf_call R return (R -> prog A) -> Prop with
      | WdfWaitLockAcquire => fun k => forall len, in_range (Some len) (k tt)
      | WdfWaitLockRelease => fun k => in_range None (k tt)
      | WdfCollectionGetCount => fun k =>
          match held with
          | Some len => in_range held (k len)
          | None => False
          end
      | WdfCollectionGetItem i => fun k =>
          match held with
          | Some len =>
              (i < len)%nat /\ forall d, in_range held (k (Some d))
          | None => False
          end
      | WdfCollectionAdd _ => fun k =>
          match held with
          | Some _ => forall len r, in_range (Some len) (k r)
          | None => False
          end
      | WdfCollectionRemove _ => fun k =>
          match held with
          | Some _ => forall len r, in_range (Some len) (k r)
          | None => False
          end
      | FilterGetData_SerialNo h => fun k =>
          is_Some h /\ forall r, in_range held (k r)
      | _ => fun k => forall r, in_range held (k r)
      end k
  end.

(* The next call of the thread indexes the collection within its bounds
   and reads through no NULL handle. *)
Definition next_call_in_bounds (s : state) (t : prog NTSTATUS) : Prop :=
  match t with
  | Ret _ => True
  | Vis c _ =>
      match c with
      | WdfCollectionGetItem i =>
          (i < length (FilterDeviceCollection s))%nat
      | FilterGetData_SerialNo h => is_Some h
      | _ => True
      end
  end.

(* The attaching thread runs up to its first acquisition of the lock (4
   calls); the query then takes the lock and reads the count (3 calls),
   and is about to fetch the first item. *)
Definition enumerating : list (nat * oracle) :=
  steps 2 4 ++ steps 1 3.

Definition during_enumeration : config :=
  default three_at_once (schedule_run enumerating three_at_once).

Definition after_interleaving : config :=
  default three_at_once (schedule_run interleaved three_at_once).

(* Every thread is disciplined from the state of the lock as it is. *)
Definition lock_invariant (cfg : config) : Prop :=
  forall i t,
    cfg_pool cfg !! i = Some t ->
    disciplined_to false
      (bool_decide (FilterDeviceCollectionLock (cfg_state cfg) = Some i)) t.

(* Every thread stays in range from the state of the lock and the length
   of the collection as they are. *)
Definition range_invariant (cfg : config) : Prop :=
  forall i t,
    cfg_pool cfg !! i = Some t ->
    in_range
      (if bool_decide (FilterDeviceCollectionLock (cfg_state cfg) = Some i)
       then Some (length (FilterDeviceCollection (cfg_state cfg)))
       else None) t.

(** ** An instance disappears while another attaches

    One instance is attached and the control device exists.  A second
    instance appears (thread 0, WDFDEVICE_INIT of handle 6) while the
    first disappears (thread 1, device of handle 2). *)
Definition attach_during_detach : config :=
  running (snd (prepare_add one_instance))
    [InvokeDeviceAdd O 6%nat; InvokeCleanup 2%nat].

(* Thread 0 fails to register its device, counts 1 and releases the lock
   (11 calls); thread 1 runs to its end (9 calls), which deletes the
   control device and empties the collection; thread 0 then runs the
   creation protocol to its end (10 calls). *)
Definition detach_before_creation : list (nat * oracle) :=
  registration_fails ++ steps 0 3 ++ steps 1 9 ++ steps 0 10.

(** * Properties *)

(** ** Basic facts about the interpreter *)

Section Interpreter.

Context {A B : Type}.

Lemma run_bind (tid : nat) (t : prog A) (f : A -> prog B) (os : list oracle)
  (s : state) :
  run tid (bind t f) os s =
  match run tid t os s with
  | None => None
  | Some (a, s', tr) =>
      match run tid (f a) (drop (length tr) os) s' with
      | None => None
      | Some (b, s'', tr') => Some (b, s'', tr ++ tr')
      end
  end.
Proof.
  revert os s. induction t as [a|R c k IH]; intros os s; simpl.
  - rewrite drop_0. destruct (run tid (f a) os s) as [[[b s''] tr']|]; reflexivity.
  - destruct (wdf_sem tid c (hd ok os) s) as [[r s']|]; [|reflexivity].
    rewrite IH.
    destruct (run tid (k r) (tl os) s') as [[[a s''] tr]|]; [|reflexivity].
    simpl.
    replace (drop (length tr) (tl os))
      with (match os with [] => [] | _ :: l => drop (length tr) l end)
      by (destruct os; simpl; [by rewrite drop_nil|done]).
    destruct (run tid (f a) _ s'') as [[[b s3] tr']|]; reflexivity.
Qed.

End Interpreter.

Lemma lock_roundtrip (s : state) (t : nat) :
  FilterDeviceCollectionLock s = None ->
  with_lock None (with_lock (Some t) s) = s.
Proof. destruct s; simpl; intros ->; reflexivity. Qed.

Lemma reachable_host_run (evs : list host_event) (s s' : state) :
  reachable s -> host_run evs s = Some s' -> reachable s'.
Proof.
  revert s. induction evs as [|ev evs IH]; simpl; intros s Hs H.
  - congruence.
  - destruct (host_step ev s) as [s1|] eqn:E; [|discriminate].
    eapply IH; [|exact H]. eapply reachable_step; eauto.
Qed.

Lemma one_instance_reachable : reachable one_instance.
Proof.
  apply (reachable_host_run [InstanceAppears [reporting 10]] initial_state);
    [constructor | vm_compute; reflexivity].
Qed.

Lemma two_instances_reachable : reachable two_instances.
Proof.
  apply (reachable_host_run
           [InstanceAppears [reporting 10]; InstanceAppears [reporting 20]]
           initial_state);
    [constructor | vm_compute; reflexivity].
Qed.

(** ** Idempotence of creation and deletion (C7) *)

Lemma FilterCreateControlDevice_skips (Device : WDFDEVICE) (os : list oracle)
  (s : state) :
  FilterDeviceCollectionLock s = None ->
  length (FilterDeviceCollection s) <> 1%nat ->
  run O (Driver.FilterCreateControlDevice Device) os s =
    Some (STATUS_SUCCESS, s,
          [Ev WdfWaitLockAcquire tt;
           Ev WdfCollectionGetCount (length (FilterDeviceCollection s));
           Ev WdfWaitLockRelease tt]).
Proof.
  intros Hl Hc. unfold Driver.FilterCreateControlDevice. simpl. rewrite Hl. simpl.
  destruct (Nat.eqb_spec (length (FilterDeviceCollection s)) 1); [done|].
  simpl. rewrite lock_roundtrip by done. reflexivity.
Qed.

Lemma FilterDeleteControlDevice_absent (Device : WDFDEVICE) (os : list oracle)
  (s : state) :
  ControlDevice s = None ->
  run O (Driver.FilterDeleteControlDevice Device) os s =
    Some (tt, s,
          [Ev (KdPrint "Deleting Control Device\n" []) tt;
           Ev get_ControlDevice None]).
Proof.
  intros H. unfold Driver.FilterDeleteControlDevice. simpl. rewrite H.
  reflexivity.
Qed.

(* The second FilterEvtDeviceAdd, its registration failed, is about to
   call FilterCreateControlDevice. *)
Example second_attach_calls_creation :
  exists tr,
    schedule_run registration_fails second_attach =
      Some {| cfg_state := before_second_creation;
              cfg_pool :=
                [status ← Driver.FilterCreateControlDevice 7%nat;
                 if negb (NT_SUCCESS status)
                 then
                   call (KdPrint
                           "FilterCreateControlDevice failed with status 0x%x\n"
                           [Some status]);;
                   Ret STATUS_SUCCESS
                 else Ret status];
              cfg_trace := tr |}.
Proof. eexists. vm_compute. reflexivity. Qed.

(** C7: the code, run where the claim fails.  A second instance appears
    while one is attached and the control device exists, and its
    WdfCollectionAdd fails.  The collection still holds one device, so
    the call of FilterCreateControlDevice that follows runs the creation
    protocol again, although its description says "we create only once":
    WdfDeviceCreate reports the name collision, and the call returns that
    failure status after allocating and freeing an initialization
    context. *)
Lemma FilterCreateControlDevice_not_idempotent :
  ControlDevice before_second_creation = Some 4%nat /\
  FilterDeviceCollection before_second_creation = [2%nat] /\
  exists s' tr,
    run O (Driver.FilterCreateControlDevice 7%nat)
      [ok; ok; ok; ok; ok; ok; ok; ok; failing STATUS_OBJECT_NAME_COLLISION]
      before_second_creation
    = Some (STATUS_OBJECT_NAME_COLLISION, s', tr) /\
    NT_SUCCESS STATUS_OBJECT_NAME_COLLISION = false /\
    existsb is_creation_start tr = true /\
    flat_map init_allocated tr = [8%nat] /\
    s' <> before_second_creation.
Proof.
  split; [vm_compute; reflexivity|].
  split; [vm_compute; reflexivity|].
  eexists _, _. split; [vm_compute; reflexivity|].
  split; [reflexivity|]. split; [reflexivity|]. split; [reflexivity|].
  intros H. apply (f_equal fw_next) in H. vm_compute in H. discriminate.
Qed.

(** FilterCreateControlDevice returns STATUS_SUCCESS and leaves the state
    as it was, without starting the creation protocol, whenever the
    collection does not hold exactly one device; FilterDeleteControlDevice
    leaves the state as it was whenever ControlDevice is NULL. *)
Theorem FilterCreateControlDevice_FilterDeleteControlDevice_noop
  (Device : WDFDEVICE) (os : list oracle) (s : state) :
  FilterDeviceCollectionLock s = None ->
  (length (FilterDeviceCollection s) <> 1%nat ->
   exists tr,
     run O (Driver.FilterCreateControlDevice Device) os s
       = Some (STATUS_SUCCESS, s, tr) /\
     existsb is_creation_start tr = false /\
     existsb is_set_ControlDevice tr = false) /\
  (ControlDevice s = None ->
   exists tr,
     run O (Driver.FilterDeleteControlDevice Device) os s = Some (tt, s, tr)).
Proof.
  intros Hl. split.
  - intros Hc. eexists. split; [apply FilterCreateControlDevice_skips; done|].
    split; reflexivity.
  - intros Hc. eexists. apply FilterDeleteControlDevice_absent; done.
Qed.

Lemma FilterCreateControlDevice_FilterDeleteControlDevice_noop_witness :
  (exists tr,
     run O (Driver.FilterCreateControlDevice 4%nat) [] two_instances
       = Some (STATUS_SUCCESS, two_instances, tr) /\
     existsb is_creation_start tr = false /\
     existsb is_set_ControlDevice tr = false) /\
  (exists tr,
     run O (Driver.FilterDeleteControlDevice 2%nat) [] initial_state
       = Some (tt, initial_state, tr)).
Proof.
  split.
  - apply (FilterCreateControlDevice_FilterDeleteControlDevice_noop
             4%nat [] two_instances); [reflexivity | vm_compute; lia].
  - apply (FilterCreateControlDevice_FilterDeleteControlDevice_noop
             2%nat [] initial_state); reflexivity.
Defined.

(** ** The cleanup callback (C3) *)

Lemma FilterEvtDeviceContextCleanup_run
  (Device : WDFOBJECT) (os : list oracle) (s : state) :
  FilterDeviceCollectionLock s = None ->
  exists s',
    run O (Driver.FilterEvtDeviceContextCleanup Device) os s =
      Some (tt, s',
            [Ev (KdPrint "Entered FilterEvtDeviceContextCleanup\n" []) tt;
             Ev WdfWaitLockAcquire tt] ++
            ([Ev WdfCollectionGetCount (length (FilterDeviceCollection s))] ++
             (if Nat.eqb (length (FilterDeviceCollection s)) 1
              then delete_trace s else []) ++
             [Ev (WdfCollectionRemove Device) tt]) ++
            [Ev WdfWaitLockRelease tt]) /\
    FilterDeviceCollection s' =
      collection_remove Device (FilterDeviceCollection s) /\
    (length (FilterDeviceCollection s) = 1%nat -> ControlDevice s' = None) /\
    (length (FilterDeviceCollection s) <> 1%nat ->
     ControlDevice s' = ControlDevice s) /\
    FilterDeviceCollectionLock s' = None.
Proof.
  intros Hl. unfold Driver.FilterEvtDeviceContextCleanup, delete_trace.
  simpl. rewrite Hl. simpl.
  destruct (Nat.eqb_spec (length (FilterDeviceCollection s)) 1) as [E|E];
    simpl.
  - destruct (ControlDevice s) as [c|] eqn:Hc; simpl;
      (eexists; split; [reflexivity|]); simpl; rewrite ?Hc; done.
  - eexists; split; [reflexivity|]. simpl. done.
Qed.

(** C3: FilterEvtDeviceContextCleanup returns, and its calls are, in this
    order: one WdfWaitLockAcquire, the count of the collection, the calls
    of FilterDeleteControlDevice when the count is 1, WdfCollectionRemove
    of the device, one WdfWaitLockRelease.  Nothing between the acquire and
    the release touches the lock, so the count check, the deletion of the
    control device and the removal from the collection happen under a
    single acquisition, the deletion before the removal. *)
Theorem FilterEvtDeviceContextCleanup_order
  (Device : WDFOBJECT) (os : list oracle) (s : state) :
  FilterDeviceCollectionLock s = None ->
  exists s' critical,
    run O (Driver.FilterEvtDeviceContextCleanup Device) os s =
      Some (tt, s',
            [Ev (KdPrint "Entered FilterEvtDeviceContextCleanup\n" []) tt;
             Ev WdfWaitLockAcquire tt] ++ critical ++
            [Ev WdfWaitLockRelease tt]) /\
    critical =
      [Ev WdfCollectionGetCount (length (FilterDeviceCollection s))] ++
      (if Nat.eqb (length (FilterDeviceCollection s)) 1
       then delete_trace s else []) ++
      [Ev (WdfCollectionRemove Device) tt] /\
    existsb is_lock_event critical = false /\
    FilterDeviceCollection s' =
      collection_remove Device (FilterDeviceCollection s) /\
    (length (FilterDeviceCollection s) = 1%nat -> ControlDevice s' = None) /\
    (length (FilterDeviceCollection s) <> 1%nat ->
     ControlDevice s' = ControlDevice s) /\
    FilterDeviceCollectionLock s' = None.
Proof.
  intros Hl.
  destruct (FilterEvtDeviceContextCleanup_run Device os s Hl)
    as (s' & Hrun & Hcol & Hone & Hother & Hfree).
  exists s'. eexists. split; [exact Hrun|]. split; [reflexivity|].
  split; [|done].
  unfold delete_trace.
  destruct (Nat.eqb (length (FilterDeviceCollection s)) 1);
    destruct (ControlDevice s); reflexivity.
Qed.

Lemma FilterEvtDeviceContextCleanup_order_witness :
  exists s' critical,
    run O (Driver.FilterEvtDeviceContextCleanup 2%nat) [] one_instance =
      Some (tt, s',
            [Ev (KdPrint "Entered FilterEvtDeviceContextCleanup\n" []) tt;
             Ev WdfWaitLockAcquire tt] ++ critical ++
            [Ev WdfWaitLockRelease tt]) /\
    critical =
      [Ev WdfCollectionGetCount (length (FilterDeviceCollection one_instance))]
      ++ (if Nat.eqb (length (FilterDeviceCollection one_instance)) 1
          then delete_trace one_instance else []) ++
      [Ev (WdfCollectionRemove 2%nat) tt] /\
    existsb is_lock_event critical = false /\
    FilterDeviceCollection s' =
      collection_remove 2%nat (FilterDeviceCollection one_instance) /\
    (length (FilterDeviceCollection one_instance) = 1%nat ->
     ControlDevice s' = None) /\
    (length (FilterDeviceCollection one_instance) <> 1%nat ->
     ControlDevice s' = ControlDevice one_instance) /\
    FilterDeviceCollectionLock s' = None.
Proof.
  apply (FilterEvtDeviceContextCleanup_order 2%nat [] one_instance).
  reflexivity.
Defined.

(** ** The device-control callback (C6) *)

Lemma run_enumeration (tid : nat) (s : state) (body : nat -> prog unit)
  (l pre : list WDFOBJECT) (os : list oracle) :
  (forall i,
     body i =
     Vis (WdfCollectionGetItem i) (fun h =>
       Vis (FilterGetData_SerialNo h) (fun v =>
         call (KdPrint "Serial No: %d\n" [v])))) ->
  FilterDeviceCollection s = pre ++ l ->
  run tid (for_loop (length l) (length pre) body) os s
  = Some (tt, s, enumeration_trace s (length pre) l).
Proof.
  intros Hbody. revert pre os.
  induction l as [|d l IH]; intros pre os H; [reflexivity|].
  cbn [length for_loop]. rewrite run_bind, Hbody.
  assert (Hd : FilterDeviceCollection s !! length pre = Some d).
  { rewrite H. by rewrite list_lookup_middle. }
  cbn [call run wdf_sem]. rewrite Hd.
  cbn [call run wdf_sem length].
  specialize (IH (pre ++ [d])). rewrite length_app in IH. simpl in IH.
  replace (length pre + 1)%nat with (S (length pre)) in IH by lia.
  rewrite IH; [reflexivity|]. by rewrite <- app_assoc.
Qed.

Lemma logged_enumeration (s : state) (i : nat) (l : list WDFOBJECT) :
  flat_map logged_SerialNo (enumeration_trace s i l) = map (SerialNo_of s) l.
Proof.
  revert i. induction l as [|d l IH]; intros i; [reflexivity|].
  cbn [enumeration_trace flat_map app]. simpl. by rewrite IH.
Qed.

(** C6, as the claim states it, fails: with one instance of serial number
    10 registered, the request is completed with Information = 0, so the
    requester receives no byte of payload, whatever its buffer holds. *)
Lemma FilterEvtIoDeviceControl_returns_no_payload :
  map (SerialNo_of one_instance) (FilterDeviceCollection one_instance)
    = [Some 10] /\
  exists s' tr,
    run O (Driver.FilterEvtIoDeviceControl 5%nat 7%nat 64 0 0) [] one_instance
      = Some (tt, s', tr) /\
    fw_completed s' = [(7%nat, STATUS_SUCCESS, 0)] /\
    forall buffer : list Z, response_payload buffer 0 <> [10].
Proof.
  split; [vm_compute; reflexivity|].
  eexists _, _. split; [vm_compute; reflexivity|].
  split; [reflexivity|]. intros buffer. unfold response_payload. simpl.
  rewrite take_0. discriminate.
Qed.

Lemma enumeration_trace_lock (s : state) (o : option nat) (i : nat)
  (l : list WDFOBJECT) :
  enumeration_trace (with_lock o s) i l = enumeration_trace s i l.
Proof.
  revert i. induction l as [|d l IH]; intros i; [reflexivity|].
  cbn [enumeration_trace]. by rewrite IH.
Qed.

Lemma FilterEvtIoDeviceControl_run
  (Queue : WDFQUEUE) (Request : WDFREQUEST)
  (OutputBufferLength InputBufferLength : Z) (IoControlCode : ULONG)
  (os : list oracle) (s : state) :
  FilterDeviceCollectionLock s = None ->
  run O (Driver.FilterEvtIoDeviceControl Queue Request OutputBufferLength
           InputBufferLength IoControlCode) os s
  = Some (tt,
          with_completed (fw_completed s ++ [(Request, STATUS_SUCCESS, 0)]) s,
          [Ev (KdPrint "Ioctl recieved into filter control object.\n" []) tt;
           Ev WdfWaitLockAcquire tt;
           Ev WdfCollectionGetCount (length (FilterDeviceCollection s))] ++
          enumeration_trace s 0 (FilterDeviceCollection s) ++
          [Ev WdfWaitLockRelease tt;
           Ev (WdfRequestCompleteWithInformation Request STATUS_SUCCESS 0) tt]).
Proof.
  intros Hl. unfold Driver.FilterEvtIoDeviceControl.
  cbn [mbind prog_bind bind call run wdf_sem]. rewrite Hl.
  cbn [mbind prog_bind bind call run wdf_sem].
  change (@mbind prog prog_bind) with (fun A B f t => @bind A B t f).
  cbn beta. rewrite run_bind.
  rewrite (run_enumeration O (with_lock (Some O) s) _
             (FilterDeviceCollection s) [])
    by (intros; reflexivity).
  cbn [mbind prog_bind bind call run wdf_sem with_lock
         FilterDeviceCollectionLock Nat.eqb length app].
  rewrite lock_roundtrip by done.
  rewrite enumeration_trace_lock. reflexivity.
Qed.

(** C6, amended: FilterEvtIoDeviceControl returns; it acquires the lock,
    reads the count, visits the devices of the collection from index 0
    upwards, printing the serial number of each to the debug log with
    KdPrint, releases the lock and completes the request with
    STATUS_SUCCESS and Information = 0.  The serial numbers logged are the
    serial numbers of the registered devices in registration order; the
    requester receives an empty payload, and the state changes by the
    completion record only. *)
Theorem FilterEvtIoDeviceControl_enumerates
  (Queue : WDFQUEUE) (Request : WDFREQUEST)
  (OutputBufferLength InputBufferLength : Z) (IoControlCode : ULONG)
  (os : list oracle) (s : state) :
  FilterDeviceCollectionLock s = None ->
  exists tr,
    run O (Driver.FilterEvtIoDeviceControl Queue Request OutputBufferLength
             InputBufferLength IoControlCode) os s
      = Some (tt,
              with_completed
                (fw_completed s ++ [(Request, STATUS_SUCCESS, 0)]) s,
              tr) /\
    tr =
      [Ev (KdPrint "Ioctl recieved into filter control object.\n" []) tt;
       Ev WdfWaitLockAcquire tt;
       Ev WdfCollectionGetCount (length (FilterDeviceCollection s))] ++
      enumeration_trace s 0 (FilterDeviceCollection s) ++
      [Ev WdfWaitLockRelease tt;
       Ev (WdfRequestCompleteWithInformation Request STATUS_SUCCESS 0) tt] /\
    flat_map logged_SerialNo tr =
      map (SerialNo_of s) (FilterDeviceCollection s) /\
    forall buffer : list Z, response_payload buffer 0 = [].
Proof.
  intros Hl. eexists. split; [apply FilterEvtIoDeviceControl_run; done|].
  split; [reflexivity|]. split.
  - cbn [flat_map app]. rewrite flat_map_app, logged_enumeration.
    simpl. by rewrite app_nil_r.
  - intros buffer. unfold response_payload. simpl. by rewrite take_0.
Qed.

Lemma FilterEvtIoDeviceControl_enumerates_witness :
  exists tr,
    run O (Driver.FilterEvtIoDeviceControl 5%nat 7%nat 64 0 0) [] two_instances
      = Some (tt,
              with_completed
                (fw_completed two_instances ++ [(7%nat, STATUS_SUCCESS, 0)])
                two_instances,
              tr) /\
    tr =
      [Ev (KdPrint "Ioctl recieved into filter control object.\n" []) tt;
       Ev WdfWaitLockAcquire tt;
       Ev WdfCollectionGetCount (length (FilterDeviceCollection two_instances))]
      ++ enumeration_trace two_instances 0 (FilterDeviceCollection two_instances)
      ++ [Ev WdfWaitLockRelease tt;
          Ev (WdfRequestCompleteWithInformation 7%nat STATUS_SUCCESS 0) tt] /\
    flat_map logged_SerialNo tr =
      map (SerialNo_of two_instances) (FilterDeviceCollection two_instances) /\
    forall buffer : list Z, response_payload buffer 0 = [].
Proof.
  apply (FilterEvtIoDeviceControl_enumerates 5%nat 7%nat 64 0 0 []
           two_instances).
  reflexivity.
Defined.

(** ** Creation of the control device (C8, C10) *)

Ltac project_state :=
  cbn [FilterDeviceCollection FilterDeviceCollectionLock ControlDevice
       fw_next fw_inits fw_devices fw_completed
       with_collection with_lock with_ControlDevice with_next with_inits
       with_devices with_completed].

Ltac project_state_in H :=
  cbn [FilterDeviceCollection FilterDeviceCollectionLock ControlDevice
       fw_next fw_inits fw_devices fw_completed
       with_collection with_lock with_ControlDevice with_next with_inits
       with_devices with_completed] in H.

Ltac rewrite_oracles H :=
  repeat match goal with
  | E : NT_SUCCESS (o_status ?x) = _ |- _ =>
      rewrite E in H
  end; simpl in H.

Ltac split_oracles :=
  repeat match goal with
  | H : NT_SUCCESS (o_status ?x) = _ |- context [NT_SUCCESS (o_status ?x)] =>
      rewrite H; simpl
  | |- context [NT_SUCCESS (o_status ?x)] =>
      let E := fresh "E" in
      destruct (NT_SUCCESS (o_status x)) eqn:E; simpl
  end.

(** C10, as the claim states it, fails in its last part: a second
    instance appears while one is attached and the control device exists,
    and its WdfCollectionAdd fails.  The call of FilterCreateControlDevice
    that follows runs the creation protocol, WdfDeviceCreate reports the
    name collision, and the error path returns with ControlDevice still
    set, to the device created for the first instance. *)
Lemma error_path_keeps_earlier_ControlDevice :
  ControlDevice before_second_creation = Some 4%nat /\
  exists s' tr,
    run O (Driver.FilterCreateControlDevice 7%nat)
      [ok; ok; ok; ok; ok; ok; ok; ok; failing STATUS_OBJECT_NAME_COLLISION]
      before_second_creation
    = Some (STATUS_OBJECT_NAME_COLLISION, s', tr) /\
    NT_SUCCESS STATUS_OBJECT_NAME_COLLISION = false /\
    existsb creation_step_failed tr = true /\
    ControlDevice s' = Some 4%nat /\
    ControlDevice s' <> None.
Proof.
  split; [vm_compute; reflexivity|].
  eexists _, _. split; [vm_compute; reflexivity|].
  repeat split; try reflexivity. discriminate.
Qed.

(** C10, amended: FilterCreateControlDevice returns, and either it never
    assigns ControlDevice, which keeps the value it had, or its calls are
    exactly those of [creation_trace]: the assignment is the last call, it
    comes after WdfControlFinishInitializing on the device it stores,
    every fallible step before it succeeded, the status returned is
    STATUS_SUCCESS and the device stored is fully initialized.  Whenever
    the status returned is a failure, ControlDevice was not assigned: it
    has the value it had on entry, NULL if it was NULL. *)
Theorem ControlDevice_set_only_after_initialization
  (Device : WDFDEVICE) (os : list oracle) (s : state) :
  FilterDeviceCollectionLock s = None ->
  exists status s' tr,
    run O (Driver.FilterCreateControlDevice Device) os s
      = Some (status, s', tr) /\
    ((existsb is_set_ControlDevice tr = false /\
      ControlDevice s' = ControlDevice s)
     \/
     (exists p c q st1 st2 st3 st4,
        tr = creation_trace Device p c q st1 st2 st3 st4 /\
        NT_SUCCESS st1 = true /\ NT_SUCCESS st2 = true /\
        NT_SUCCESS st3 = true /\ NT_SUCCESS st4 = true /\
        status = STATUS_SUCCESS /\
        ControlDevice s' = Some c /\
        fully_initialized s' c)) /\
    (NT_SUCCESS status = false ->
     existsb is_set_ControlDevice tr = false /\
     ControlDevice s' = ControlDevice s /\
     (ControlDevice s = None -> ControlDevice s' = None)).
Proof.
  intros Hl.
  unfold Driver.FilterCreateControlDevice,
    Driver.FilterCreateControlDevice_Error.
  simpl. rewrite Hl. simpl.
  destruct (Nat.eqb_spec (length (FilterDeviceCollection s)) 1) as [E1|E1];
    simpl.
  2:{ eexists _, _, _. split; [reflexivity|]. split; [left; done|].
      intros H; discriminate. }
  split_oracles;
    eexists _, _, _; (split; [reflexivity|]); simpl.
  2-6: split; [left; done | done].
  split; [|intros H; discriminate].
  right. unfold creation_trace, fully_initialized, control_queue_config.
  rewrite E1.
  eexists _, _, _, _, _, _, _. split; [reflexivity|].
  repeat (split; [done|]).
  project_state. rewrite !lookup_alter_eq, lookup_insert_eq.
  eexists. split; [reflexivity|]. done.
Qed.

Lemma ControlDevice_set_only_after_initialization_witness :
  FilterDeviceCollectionLock before_second_creation = None /\
  exists status s' tr,
    run O (Driver.FilterCreateControlDevice 7%nat)
      [ok; ok; ok; ok; ok; ok; ok; ok; failing STATUS_OBJECT_NAME_COLLISION]
      before_second_creation
      = Some (status, s', tr) /\
    NT_SUCCESS status = false /\
    existsb is_set_ControlDevice tr = false /\
    ControlDevice s' = ControlDevice before_second_creation.
Proof.
  split; [reflexivity|].
  destruct (ControlDevice_set_only_after_initialization 7%nat
              [ok; ok; ok; ok; ok; ok; ok; ok;
               failing STATUS_OBJECT_NAME_COLLISION]
              before_second_creation eq_refl)
    as (status & s' & tr & Hrun & _ & H).
  exists status, s', tr.
  assert (Hf : NT_SUCCESS status = false).
  { revert Hrun. vm_compute. intros [= <- <- <-]. reflexivity. }
  destruct (H Hf) as (H1 & H2 & _).
  split; [exact Hrun|]. split; [exact Hf|]. split; [exact H1 | exact H2].
Defined.

(** C8, as the claim states it, fails in its last part: a second instance
    appears while one is attached and the control device exists, and its
    WdfCollectionAdd fails.  The call of FilterCreateControlDevice that
    follows runs the creation protocol; WdfDeviceCreate, called after the
    initialization context was allocated, reports the name collision; the
    error path frees the context and returns with ControlDevice still
    set, to the device created for the first instance. *)
Lemma rollback_keeps_earlier_ControlDevice :
  ControlDevice before_second_creation = Some 4%nat /\
  exists s' tr,
    run O (Driver.FilterCreateControlDevice 7%nat)
      [ok; ok; ok; ok; ok; ok; ok; ok; failing STATUS_OBJECT_NAME_COLLISION]
      before_second_creation
    = Some (STATUS_OBJECT_NAME_COLLISION, s', tr) /\
    existsb creation_step_failed tr = true /\
    flat_map init_allocated tr = [8%nat] /\
    fw_inits s' !! 8%nat = None /\
    ControlDevice s' = Some 4%nat /\
    ControlDevice s' <> None.
Proof.
  split; [vm_compute; reflexivity|].
  eexists _, _. split; [vm_compute; reflexivity|].
  repeat split; try reflexivity. discriminate.
Qed.

(** C8, amended: FilterCreateControlDevice returns, and when a step of the
    creation protocol has failed it returns a failure status with every
    initialization context it allocated and every device it created
    released (neither is a live framework object any more), without
    having assigned ControlDevice, which has the value it had on entry,
    NULL if it was NULL. *)
Theorem FilterCreateControlDevice_rollback
  (Device : WDFDEVICE) (os : list oracle) (s : state) :
  FilterDeviceCollectionLock s = None ->
  exists status s' tr,
    run O (Driver.FilterCreateControlDevice Device) os s
      = Some (status, s', tr) /\
    (existsb creation_step_failed tr = true ->
     NT_SUCCESS status = false /\
     (forall p, In p (flat_map init_allocated tr) -> fw_inits s' !! p = None) /\
     (forall d, In d (flat_map device_created tr) ->
                fw_devices s' !! d = None) /\
     existsb is_set_ControlDevice tr = false /\
     ControlDevice s' = ControlDevice s /\
     (ControlDevice s = None -> ControlDevice s' = None)).
Proof.
  intros Hl.
  unfold Driver.FilterCreateControlDevice,
    Driver.FilterCreateControlDevice_Error.
  simpl. rewrite Hl. simpl.
  destruct (Nat.eqb_spec (length (FilterDeviceCollection s)) 1) as [E1|E1];
    simpl.
  2:{ eexists _, _, _. split; [reflexivity|]. intros H; discriminate. }
  split_oracles;
    eexists _, _, _; (split; [reflexivity|]); simpl;
    intros Hf; rewrite_oracles Hf; try discriminate;
    (split; [done|]);
    (split; [intros ? H; repeat destruct H as [<-|H]; try done;
             apply lookup_delete_eq|]);
    (split; [intros ? H; repeat destruct H as [<-|H]; try done;
             apply lookup_delete_eq|]);
    done.
Qed.

Lemma FilterCreateControlDevice_rollback_witness :
  FilterDeviceCollectionLock before_first_creation = None /\
  exists status s' tr,
    run O (Driver.FilterCreateControlDevice 2%nat)
      [ok; ok; ok; ok; ok; ok; ok; ok; ok;
       failing STATUS_OBJECT_NAME_COLLISION] before_first_creation
      = Some (status, s', tr) /\
    existsb creation_step_failed tr = true /\
    NT_SUCCESS status = false /\
    (forall p, In p (flat_map init_allocated tr) -> fw_inits s' !! p = None) /\
    (forall d, In d (flat_map device_created tr) ->
               fw_devices s' !! d = None) /\
    existsb is_set_ControlDevice tr = false /\
    ControlDevice s' = ControlDevice before_first_creation /\
    ControlDevice s' = None.
Proof.
  split; [reflexivity|].
  destruct (FilterCreateControlDevice_rollback 2%nat
              [ok; ok; ok; ok; ok; ok; ok; ok; ok;
               failing STATUS_OBJECT_NAME_COLLISION]
              before_first_creation eq_refl)
    as (status & s' & tr & Hrun & H).
  exists status, s', tr.
  assert (Hf : existsb creation_step_failed tr = true).
  { revert Hrun. vm_compute. intros [= <- <- <-]. reflexivity. }
  destruct (H Hf) as (H1 & H2 & H3 & H4 & H5 & H6).
  split; [exact Hrun|]. split; [exact Hf|]. repeat (split; [assumption|]).
  apply H6. reflexivity.
Defined.

(* The first creation, failing at the symbolic link after the device was
   created, and succeeding. *)
Example rollback_after_symbolic_link_failure :
  exists s' tr,
    run O (Driver.FilterCreateControlDevice 2%nat)
      [ok; ok; ok; ok; ok; ok; ok; ok; ok;
       failing STATUS_INSUFFICIENT_RESOURCES] before_first_creation
      = Some (STATUS_INSUFFICIENT_RESOURCES, s', tr) /\
    existsb creation_step_failed tr = true /\
    flat_map init_allocated tr = [3%nat] /\
    flat_map device_created tr = [4%nat] /\
    existsb is_object_delete tr = true /\
    fw_inits s' = fw_inits before_first_creation /\
    fw_devices s' = fw_devices before_first_creation /\
    ControlDevice s' = None.
Proof. eexists _, _. split; [vm_compute; reflexivity|]. done. Qed.

Example first_creation_succeeds :
  exists s',
    run O (Driver.FilterCreateControlDevice 2%nat) [] before_first_creation
      = Some (STATUS_SUCCESS, s',
              creation_trace 2%nat 3%nat 4%nat 5%nat STATUS_SUCCESS
                STATUS_SUCCESS STATUS_SUCCESS STATUS_SUCCESS) /\
    ControlDevice before_first_creation = None /\
    ControlDevice s' = Some 4%nat.
Proof. eexists. split; [vm_compute; reflexivity|]. done. Qed.

(** ** Attachment of an instance (C4, C5, C9) *)

(* What the rest of the driver needs to know about a run of
   FilterCreateControlDevice. *)
Lemma FilterCreateControlDevice_summary
  (Device : WDFDEVICE) (os : list oracle) (s : state) :
  FilterDeviceCollectionLock s = None ->
  exists status s' tr,
    run O (Driver.FilterCreateControlDevice Device) os s
      = Some (status, s', tr) /\
    (existsb creation_step_failed tr = true -> NT_SUCCESS status = false) /\
    (NT_SUCCESS status = true -> status = STATUS_SUCCESS) /\
    FilterDeviceCollection s' = FilterDeviceCollection s /\
    FilterDeviceCollectionLock s' = None /\
    (ControlDevice s' = ControlDevice s \/
     length (FilterDeviceCollection s) = 1%nat) /\
    (forall d, (d < fw_next s)%nat -> fw_devices s' !! d = fw_devices s !! d) /\
    existsb query_failed tr = false /\
    existsb collection_add_failed tr = false /\
    existsb filter_device_create_failed tr = false.
Proof.
  intros Hl.
  unfold Driver.FilterCreateControlDevice,
    Driver.FilterCreateControlDevice_Error.
  simpl. rewrite Hl. simpl.
  destruct (Nat.eqb_spec (length (FilterDeviceCollection s)) 1) as [E1|E1];
    simpl.
  2:{ eexists _, _, _. split; [reflexivity|]. simpl.
      repeat split; try done. left; done. }
  split_oracles;
    eexists _, _, _; (split; [reflexivity|]); simpl.
  all: split; [intros Hf; rewrite_oracles Hf; first [done|reflexivity]|].
  all: split;
    [intros Hf; first [congruence|vm_compute in Hf; discriminate]|].
  all: split; [done|]; split; [done|]; split; [right; done|].
  all: split; [|done].
  all: intros d Hd.
  all: rewrite ?lookup_delete_ne, ?lookup_alter_ne, ?lookup_insert_ne by lia.
  all: reflexivity.
Qed.

Opaque Driver.FilterCreateControlDevice.

(* Runs FilterEvtDeviceAdd up to the call of FilterCreateControlDevice,
   one goal per outcome of the calls before it, and puts the summary of
   that call in the context. *)
Ltac run_FilterEvtDeviceAdd Hl :=
  unfold Driver.FilterEvtDeviceAdd; simpl; split_oracles; rewrite ?Hl; simpl;
  try match goal with
  | |- context [run O (Driver.FilterCreateControlDevice ?d ≫= ?k) ?os ?s1] =>
      let status := fresh "status" in
      let s2 := fresh "s2" in
      let tr2 := fresh "tr2" in
      destruct (FilterCreateControlDevice_summary d os s1 eq_refl)
        as (status & s2 & tr2 & Hrun & Hfail & Hok & Hcol & Hlock & Hcd
            & Hframe & Hq & Ha & Hc);
      change (run O (Driver.FilterCreateControlDevice d ≫= k) os s1)
        with (run O (bind (Driver.FilterCreateControlDevice d) k) os s1);
      rewrite run_bind, Hrun;
      let Est := fresh "Est" in
      destruct (NT_SUCCESS status) eqn:Est; simpl
  end.

(** C4: FilterEvtDeviceAdd returns, and when a step of the creation of the
    control device has failed, the status it returns is STATUS_SUCCESS. *)
Theorem FilterEvtDeviceAdd_survives_creation_failure
  (Driver : WDFDRIVER) (DeviceInit : PWDFDEVICE_INIT) (os : list oracle)
  (s : state) :
  FilterDeviceCollectionLock s = None ->
  exists status s' tr,
    run O (Driver.FilterEvtDeviceAdd Driver DeviceInit) os s
      = Some (status, s', tr) /\
    (existsb creation_step_failed tr = true -> status = STATUS_SUCCESS).
Proof.
  intros Hl. run_FilterEvtDeviceAdd Hl;
    eexists _, _, _; (split; [reflexivity|]); simpl.
  all: try (intros Hf; rewrite_oracles Hf; done).
  all: auto.
Qed.

Lemma FilterEvtDeviceAdd_survives_creation_failure_witness :
  FilterDeviceCollectionLock first_attach = None /\
  exists status s' tr,
    run O (Driver.FilterEvtDeviceAdd O 1%nat) symbolic_link_fails first_attach
      = Some (status, s', tr) /\
    existsb creation_step_failed tr = true /\
    status = STATUS_SUCCESS.
Proof.
  split; [reflexivity|].
  destruct (FilterEvtDeviceAdd_survives_creation_failure O 1%nat
              symbolic_link_fails first_attach eq_refl)
    as (status & s' & tr & Hrun & H).
  exists status, s', tr.
  assert (Hf : existsb creation_step_failed tr = true).
  { revert Hrun. vm_compute. intros [= <- <- <-]. reflexivity. }
  split; [exact Hrun|]. split; [exact Hf | exact (H Hf)].
Defined.

Example attach_with_symbolic_link_failure :
  exists s' tr,
    run O (Driver.FilterEvtDeviceAdd O 1%nat) symbolic_link_fails first_attach
      = Some (STATUS_SUCCESS, s', tr) /\
    existsb creation_step_failed tr = true /\
    FilterDeviceCollection s' = [2%nat] /\
    ControlDevice s' = None /\
    fw_devices s' !! 4%nat = None.
Proof. eexists _, _. split; [vm_compute; reflexivity|]. done. Qed.

(** C5, as the claim states it, fails: when WdfCollectionAdd fails with
    STATUS_INSUFFICIENT_RESOURCES, FilterEvtDeviceAdd prints the status and
    goes on; it returns STATUS_SUCCESS with the device missing from the
    collection. *)
Lemma FilterEvtDeviceAdd_hides_registry_failure :
  exists s' tr,
    run O (Driver.FilterEvtDeviceAdd O 1%nat) collection_add_fails first_attach
      = Some (STATUS_SUCCESS, s', tr) /\
    existsb collection_add_failed tr = true /\
    NT_SUCCESS STATUS_SUCCESS = true /\
    FilterDeviceCollection s' = [] /\
    is_Some (fw_devices s' !! 2%nat).
Proof.
  eexists _, _. split; [vm_compute; reflexivity|].
  repeat split; try reflexivity. vm_compute. eauto.
Qed.

(** C5, amended: FilterEvtDeviceAdd returns; the one failure it reports is
    the failure of WdfDeviceCreate for the filter device.  Whenever that
    call has not failed the status returned is STATUS_SUCCESS, also when
    WdfCollectionAdd has failed. *)
Theorem FilterEvtDeviceAdd_reports_device_creation_only
  (Driver : WDFDRIVER) (DeviceInit : PWDFDEVICE_INIT) (os : list oracle)
  (s : state) :
  FilterDeviceCollectionLock s = None ->
  exists status s' tr,
    run O (Driver.FilterEvtDeviceAdd Driver DeviceInit) os s
      = Some (status, s', tr) /\
    (existsb collection_add_failed tr = true -> status = STATUS_SUCCESS) /\
    (existsb filter_device_create_failed tr = false ->
     status = STATUS_SUCCESS) /\
    (existsb filter_device_create_failed tr = true ->
     NT_SUCCESS status = false).
Proof.
  intros Hl. run_FilterEvtDeviceAdd Hl;
    eexists _, _, _; (split; [reflexivity|]); simpl;
    rewrite ?existsb_app, ?Hc, ?Ha; simpl.
  all: repeat split; intros Hf; rewrite_oracles Hf; auto; try done.
Qed.

Lemma FilterEvtDeviceAdd_reports_device_creation_only_witness :
  FilterDeviceCollectionLock first_attach = None /\
  exists status s' tr,
    run O (Driver.FilterEvtDeviceAdd O 1%nat) collection_add_fails first_attach
      = Some (status, s', tr) /\
    existsb collection_add_failed tr = true /\
    existsb filter_device_create_failed tr = false /\
    status = STATUS_SUCCESS.
Proof.
  split; [reflexivity|].
  destruct (FilterEvtDeviceAdd_reports_device_creation_only O 1%nat
              collection_add_fails first_attach eq_refl)
    as (status & s' & tr & Hrun & H & _).
  exists status, s', tr.
  assert (Hf : existsb collection_add_failed tr = true /\
               existsb filter_device_create_failed tr = false).
  { revert Hrun. vm_compute. intros [= <- <- <-]. split; reflexivity. }
  destruct Hf as [Hf Hg].
  split; [exact Hrun|]. split; [exact Hf|]. split; [exact Hg | exact (H Hf)].
Defined.

(** C9: FilterEvtDeviceAdd returns, and when WdfFdoInitQueryProperty has
    failed it goes on all the same: unless the creation of the filter
    device fails, the status returned is STATUS_SUCCESS and the filter
    device exists with a filter extension whose SerialNo holds no defined
    value; unless WdfCollectionAdd fails too, that device has been
    appended to the collection. *)
Theorem FilterEvtDeviceAdd_identification_failure_not_fatal
  (Driver : WDFDRIVER) (DeviceInit : PWDFDEVICE_INIT) (os : list oracle)
  (s : state) :
  FilterDeviceCollectionLock s = None ->
  exists status s' tr,
    run O (Driver.FilterEvtDeviceAdd Driver DeviceInit) os s
      = Some (status, s', tr) /\
    (existsb query_failed tr = true ->
     existsb filter_device_create_failed tr = false ->
     status = STATUS_SUCCESS /\
     exists device o,
       In device (flat_map device_created tr) /\
       fw_devices s' !! device = Some o /\
       ContextTypeInfo (dev_attributes o) = FILTER_EXTENSION /\
       dev_SerialNo o = None /\
       (existsb collection_add_failed tr = false ->
        FilterDeviceCollection s' = FilterDeviceCollection s ++ [device])).
Proof.
  intros Hl. run_FilterEvtDeviceAdd Hl;
    eexists _, _, _; (split; [reflexivity|]); simpl;
    rewrite ?existsb_app, ?Hq, ?Hc, ?Ha; simpl;
    intros Hf Hg; rewrite_oracles Hf; rewrite_oracles Hg; try done.
  all: split; [auto|].
  all: eexists _, _; split; [simpl; left; reflexivity|].
  all: rewrite Hframe by (simpl; lia); project_state.
  all: rewrite lookup_alter_eq, lookup_insert_eq.
  all: split; [reflexivity|]; split; [reflexivity|]; split; [reflexivity|].
  all: intros Hh; rewrite_oracles Hh; try done.
  all: rewrite Hcol; reflexivity.
Qed.

Lemma FilterEvtDeviceAdd_identification_failure_not_fatal_witness :
  FilterDeviceCollectionLock first_attach = None /\
  exists status s' tr,
    run O (Driver.FilterEvtDeviceAdd O 1%nat) query_fails first_attach
      = Some (status, s', tr) /\
    existsb query_failed tr = true /\
    existsb filter_device_create_failed tr = false /\
    existsb collection_add_failed tr = false /\
    status = STATUS_SUCCESS /\
    exists device o,
      In device (flat_map device_created tr) /\
      fw_devices s' !! device = Some o /\
      ContextTypeInfo (dev_attributes o) = FILTER_EXTENSION /\
      dev_SerialNo o = None /\
      FilterDeviceCollection s' =
        FilterDeviceCollection first_attach ++ [device].
Proof.
  split; [reflexivity|].
  destruct (FilterEvtDeviceAdd_identification_failure_not_fatal O 1%nat
              query_fails first_attach eq_refl)
    as (status & s' & tr & Hrun & H).
  exists status, s', tr.
  assert (Hf : existsb query_failed tr = true /\
               existsb filter_device_create_failed tr = false /\
               existsb collection_add_failed tr = false).
  { revert Hrun. vm_compute. intros [= <- <- <-]. repeat split. }
  destruct Hf as (Hq & Hc & Ha).
  destruct (H Hq Hc) as (Hst & device & o & Hin & Hdev & Hctx & Hser & Hreg).
  split; [exact Hrun|]. split; [exact Hq|]. split; [exact Hc|].
  split; [exact Ha|]. split; [exact Hst|].
  exists device, o. repeat (split; [assumption|]). exact (Hreg Ha).
Defined.

Example attach_with_query_failure :
  exists s' tr,
    run O (Driver.FilterEvtDeviceAdd O 1%nat) query_fails first_attach
      = Some (STATUS_SUCCESS, s', tr) /\
    existsb query_failed tr = true /\
    FilterDeviceCollection s' = [2%nat] /\
    SerialNo_of s' 2%nat = None /\
    ControlDevice s' = Some 4%nat.
Proof. eexists _, _. split; [vm_compute; reflexivity|]. done. Qed.

(** ** The control device and the collection (C1) *)

Lemma FilterEvtDeviceAdd_globals
  (Driver : WDFDRIVER) (DeviceInit : PWDFDEVICE_INIT) (os : list oracle)
  (s : state) :
  FilterDeviceCollectionLock s = None ->
  exists status s' tr,
    run O (Driver.FilterEvtDeviceAdd Driver DeviceInit) os s
      = Some (status, s', tr) /\
    FilterDeviceCollectionLock s' = None /\
    (FilterDeviceCollection s' = FilterDeviceCollection s \/
     exists d, FilterDeviceCollection s' = FilterDeviceCollection s ++ [d]) /\
    (ControlDevice s' = ControlDevice s \/
     length (FilterDeviceCollection s') = 1%nat).
Proof.
  intros Hl. run_FilterEvtDeviceAdd Hl;
    eexists _, _, _; (split; [reflexivity|]); simpl;
    rewrite ?Hcol; project_state.
  all: split; [done|].
  all: split; [first [left; reflexivity | right; eexists; reflexivity]|].
  all: try (left; reflexivity).
  all: destruct Hcd as [Hcd|Hcd]; [left; exact Hcd | right; exact Hcd].
Qed.

Lemma host_step_transition (ev : host_event) (s s' : state) :
  FilterDeviceCollectionLock s = None ->
  host_step ev s = Some s' ->
  FilterDeviceCollectionLock s' = None /\
  transition_ok ev s s' /\
  (registry_count s' = registry_count s \/
   registry_count s' = S (registry_count s) \/
   ((registry_count s' < registry_count s)%nat /\
    (registry_count s <= S (registry_count s'))%nat /\
    exists d, ev = InstanceDisappears d)).
Proof.
  intros Hl. destruct ev as [os|Device|target Request];
    cbn [host_step prepare_add].
  - destruct (FilterEvtDeviceAdd_globals O (fw_next s) os
                (with_next (S (fw_next s))
                   (with_inits (<[fw_next s:=fdo_init]> (fw_inits s)) s)) Hl)
      as (status & s2 & tr & Hrun & Hlock & Hcol & Hcd).
    rewrite Hrun. intros [= <-]. unfold registry_count. project_state.
    split; [done|]. project_state_in Hcol. project_state_in Hcd.
    split; [exact Hcd|].
    destruct Hcol as [->|[d ->]]; [left; done|].
    right; left. rewrite length_app. simpl. lia.
  - destruct (fw_devices s !! Device) as [o|]; [|discriminate].
    destruct (has_cleanup o); [|discriminate].
    destruct (FilterEvtDeviceContextCleanup_run Device [] s Hl)
      as (s1 & Hrun & Hcol & Hone & Hother & Hfree).
    rewrite Hrun. intros [= <-]. unfold registry_count. project_state.
    split; [done|]. split; [split; done|]. rewrite Hcol.
    assert (Hrem : forall l,
              length (collection_remove Device l) = length l \/
              S (length (collection_remove Device l)) = length l).
    { induction l as [|x l IH]; simpl; [left; done|].
      destruct (Nat.eqb x Device); simpl; [right; done|].
      destruct IH as [->| <-]; [left|right]; done. }
    destruct (Hrem (FilterDeviceCollection s)) as [E|E];
      [left; done | right; right].
    split; [lia|]. split; [lia|]. eexists; reflexivity.
  - destruct (fw_devices s !! target) as [o|]; [|discriminate].
    destruct (accepts_ioctl o); [|discriminate].
    rewrite FilterEvtIoDeviceControl_run by done.
    intros [= <-]. unfold registry_count. project_state.
    split; [done|]. split; [split; done|]. left; done.
Qed.

(** *** Creation when every step succeeds *)

Transparent Driver.FilterCreateControlDevice.

Lemma FilterCreateControlDevice_creates
  (Device : WDFDEVICE) (os : list oracle) (s s' : state) (status : NTSTATUS)
  (tr : trace) :
  FilterDeviceCollectionLock s = None ->
  length (FilterDeviceCollection s) = 1%nat ->
  run O (Driver.FilterCreateControlDevice Device) os s
    = Some (status, s', tr) ->
  existsb creation_step_failed tr = false ->
  exists c, ControlDevice s' = Some c /\ fully_initialized s' c.
Proof.
  intros Hl E1.
  unfold Driver.FilterCreateControlDevice,
    Driver.FilterCreateControlDevice_Error.
  simpl. rewrite Hl. simpl. rewrite E1. simpl.
  split_oracles; intros [= <- <- <-] Hf; simpl in Hf; rewrite_oracles Hf;
    try discriminate.
  eexists. split; [reflexivity|].
  unfold fully_initialized, control_queue_config. project_state.
  rewrite !lookup_alter_eq, lookup_insert_eq.
  eexists. split; [reflexivity|]. done.
Qed.

Opaque Driver.FilterCreateControlDevice.

Lemma FilterEvtDeviceAdd_creates
  (Driver : WDFDRIVER) (DeviceInit : PWDFDEVICE_INIT) (os : list oracle)
  (s s' : state) (result : NTSTATUS) (tr : trace) :
  FilterDeviceCollectionLock s = None ->
  FilterDeviceCollection s = [] ->
  run O (Driver.FilterEvtDeviceAdd Driver DeviceInit) os s
    = Some (result, s', tr) ->
  existsb filter_device_create_failed tr = false ->
  existsb collection_add_failed tr = false ->
  existsb creation_step_failed tr = false ->
  length (FilterDeviceCollection s') = 1%nat /\
  exists c, ControlDevice s' = Some c /\ fully_initialized s' c.
Proof.
  intros Hl Hempty. run_FilterEvtDeviceAdd Hl.
  all: intros [= <- <- <-] Hd Hadd Hstep.
  all: simpl in Hd, Hadd, Hstep.
  all: rewrite ?existsb_app in Hd, Hadd, Hstep.
  all: simpl in Hd, Hadd, Hstep.
  all: rewrite_oracles Hd; rewrite_oracles Hadd; rewrite_oracles Hstep.
  all: try discriminate.
  all: rewrite ?orb_false_r in Hstep.
  all: apply FilterCreateControlDevice_creates in Hrun;
    [|reflexivity|project_state; rewrite Hempty; reflexivity|exact Hstep].
  all: destruct Hrun as (c & Hset & Hfull).
  all: project_state; rewrite Hcol; project_state; rewrite Hempty.
  all: split; [reflexivity|].
  all: exists c; split; [exact Hset|exact Hfull].
Qed.

(** C1, as the claim states it, fails in both directions.  Delivered one
    after the other: the creation of the control device fails (here at
    the symbolic link), the attachment still succeeds, and the state
    reached has one device in the collection and no control device.
    Delivered at once: with one instance attached, a second instance
    fails to register and counts 1; the first instance disappears, which
    deletes the control device and empties the collection; the second
    then runs the creation protocol, and both callbacks return with a
    control device and an empty collection.  And when two instances
    appear at once from an empty collection and both register before
    either counts, both callbacks return with two devices registered and
    no control device, although no call has failed. *)
Lemma channel_and_registry_disagree :
  (exists s,
     host_run [InstanceAppears symbolic_link_fails] initial_state = Some s /\
     reachable s /\
     registry_count s = 1%nat /\
     ControlDevice s = None /\
     ~ (channel_exists s <-> (0 < registry_count s)%nat)) /\
  (exists cfg,
     reachable one_instance /\
     schedule_run detach_before_creation attach_during_detach = Some cfg /\
     cfg_pool cfg = [Ret STATUS_SUCCESS; Ret STATUS_SUCCESS] /\
     FilterDeviceCollectionLock (cfg_state cfg) = None /\
     registry_count (cfg_state cfg) = O /\
     ControlDevice (cfg_state cfg) = Some 9%nat /\
     ~ (channel_exists (cfg_state cfg)
        <-> (0 < registry_count (cfg_state cfg))%nat)) /\
  (exists cfg,
     registry_count (cfg_state two_appearing) = O /\
     schedule_run both_register_first two_appearing = Some cfg /\
     cfg_pool cfg = [Ret STATUS_SUCCESS; Ret STATUS_SUCCESS] /\
     existsb (fun e => creation_step_failed (snd e)) (cfg_trace cfg) = false /\
     no_failed_registration (cfg_trace cfg) = true /\
     registry_count (cfg_state cfg) = 2%nat /\
     ControlDevice (cfg_state cfg) = None /\
     ~ (channel_exists (cfg_state cfg)
        <-> (0 < registry_count (cfg_state cfg))%nat)).
Proof.
  split; [|split].
  - eexists. split; [vm_compute; reflexivity|].
    split.
    { apply (reachable_host_run [InstanceAppears symbolic_link_fails]
               initial_state); [constructor | vm_compute; reflexivity]. }
    split; [reflexivity|]. split; [reflexivity|].
    unfold channel_exists, registry_count. simpl.
    intros [_ H]. destruct H as [c Hc]; [lia|discriminate].
  - eexists. split; [exact one_instance_reachable|].
    split; [vm_compute; reflexivity|].
    split; [reflexivity|]. split; [reflexivity|]. split; [reflexivity|].
    split; [reflexivity|].
    unfold channel_exists, registry_count. simpl.
    intros [H _]. assert (0 < 0)%nat; [apply H; eexists; reflexivity | lia].
  - eexists. split; [reflexivity|]. split; [vm_compute; reflexivity|].
    split; [reflexivity|]. split; [reflexivity|]. split; [reflexivity|].
    split; [reflexivity|]. split; [reflexivity|].
    unfold channel_exists, registry_count. simpl.
    intros [_ H]. destruct H as [c Hc]; [lia|discriminate].
Qed.

(** C1, amended: in every state reached by events delivered one after the
    other, a control device exists only if the collection is not empty.
    An instance-appears event changes ControlDevice only when it leaves
    exactly one device in the collection; an instance-disappears event
    that finds exactly one device in the collection leaves ControlDevice
    NULL, and leaves it as it was otherwise; a query changes neither.
    Creation happens on the transition from an empty collection, provided
    the steps succeed: when an instance appears with the collection
    empty, and neither the creation of the filter device, nor
    WdfCollectionAdd, nor a step of the creation protocol fails, the
    event leaves one device in the collection and ControlDevice set to a
    fully initialized control device. *)
Theorem channel_only_with_registered_instance (s : state) :
  reachable s ->
  (channel_exists s -> (0 < registry_count s)%nat) /\
  FilterDeviceCollectionLock s = None /\
  (forall ev s', host_step ev s = Some s' -> transition_ok ev s s') /\
  (forall os result s2 tr s',
     registry_count s = O ->
     host_step (InstanceAppears os) s = Some s' ->
     run O (Driver.FilterEvtDeviceAdd O (fst (prepare_add s))) os
       (snd (prepare_add s)) = Some (result, s2, tr) ->
     existsb filter_device_create_failed tr = false ->
     existsb collection_add_failed tr = false ->
     existsb creation_step_failed tr = false ->
     registry_count s' = 1%nat /\
     exists c, ControlDevice s' = Some c /\ fully_initialized s' c).
Proof.
  intros Hr.
  assert (Hinv : (channel_exists s -> (0 < registry_count s)%nat) /\
                 FilterDeviceCollectionLock s = None).
  { induction Hr as [|s ev s' Hr [IH Hl] Hstep].
    - split; [|reflexivity]. intros [c Hc]. discriminate.
    - destruct (host_step_transition ev s s' Hl Hstep)
        as (Hl' & Htr & Hcount).
      split; [|exact Hl']. unfold channel_exists in *. intros Hc.
      destruct ev as [os|Device|target Request]; cbn [transition_ok] in Htr.
      + destruct Htr as [Hcd|Hone]; [|lia].
        rewrite Hcd in Hc. specialize (IH Hc).
        destruct Hcount as [E|[E|(E & _ & d & Hd)]];
          [lia | lia | discriminate].
      + destruct Htr as [Hone Hother].
        destruct (decide (registry_count s = 1%nat)) as [E|E].
        * rewrite (Hone E) in Hc. destruct Hc; discriminate.
        * rewrite (Hother E) in Hc. specialize (IH Hc).
          destruct Hcount as [E'|[E'|(E1 & E2 & _)]]; lia.
      + destruct Htr as [Hcd Hcol]. rewrite Hcd in Hc. specialize (IH Hc).
        unfold registry_count in *. rewrite Hcol. exact IH. }
  destruct Hinv as [Hinv Hl]. split; [exact Hinv|]. split; [exact Hl|].
  split.
  - intros ev s' Hstep.
    destruct (host_step_transition ev s s' Hl Hstep) as (_ & Htr & _).
    exact Htr.
  - intros os result s2 tr s' Hzero Hstep Hrun Hd Hadd Hsteps.
    cbn [host_step] in Hstep.
    destruct (prepare_add s) as [i s1] eqn:Hprep.
    cbn [fst snd] in Hrun.
    injection Hprep as <- <-.
    rewrite Hrun in Hstep. injection Hstep as <-.
    assert (Hempty : FilterDeviceCollection s = [])
      by (apply nil_length_inv; exact Hzero).
    pose proof (FilterEvtDeviceAdd_creates O (fw_next s) os
                  (with_next (S (fw_next s))
                     (with_inits (<[fw_next s:=fdo_init]> (fw_inits s)) s))
                  s2 result tr Hl Hempty Hrun Hd Hadd Hsteps) as Hcreated.
    unfold registry_count, fully_initialized. project_state. exact Hcreated.
Qed.

Lemma channel_only_with_registered_instance_witness :
  ((channel_exists one_instance -> (0 < registry_count one_instance)%nat) /\
   FilterDeviceCollectionLock one_instance = None /\
   forall ev s',
     host_step ev one_instance = Some s' -> transition_ok ev one_instance s') /\
  host_step (InstanceAppears [reporting 10]) initial_state
    = Some one_instance /\
  registry_count one_instance = 1%nat /\
  exists c, ControlDevice one_instance = Some c /\
            fully_initialized one_instance c.
Proof.
  split.
  - destruct (channel_only_with_registered_instance one_instance)
      as (H1 & H2 & H3 & _); [|done].
    apply (reachable_host_run [InstanceAppears [reporting 10]] initial_state);
      [constructor | vm_compute; reflexivity].
  - split; [vm_compute; reflexivity|].
    destruct (channel_only_with_registered_instance initial_state
                reachable_initial) as (_ & _ & _ & H4).
    eapply (H4 [reporting 10]);
      [reflexivity | vm_compute; reflexivity | vm_compute; reflexivity
      | reflexivity | reflexivity | reflexivity].
Defined.

(* The scenarios of the specification, run on the model. *)
Example scenario_one_instance :
  registry_count one_instance = 1%nat /\
  ControlDevice one_instance = Some 4%nat /\
  map (SerialNo_of one_instance) (FilterDeviceCollection one_instance)
    = [Some 10].
Proof. vm_compute. done. Qed.

Example scenario_two_instances :
  registry_count two_instances = 2%nat /\
  ControlDevice two_instances = Some 4%nat /\
  map (SerialNo_of two_instances) (FilterDeviceCollection two_instances)
    = [Some 10; Some 20].
Proof. vm_compute. done. Qed.

Example scenario_first_disappears :
  exists s,
    host_run [InstanceDisappears 2%nat] two_instances = Some s /\
    ControlDevice s = Some 4%nat /\
    map (SerialNo_of s) (FilterDeviceCollection s) = [Some 20].
Proof. eexists. split; [vm_compute; reflexivity|]. vm_compute. done. Qed.

Example scenario_last_disappears :
  exists s,
    host_run [InstanceDisappears 2%nat; InstanceDisappears 7%nat]
      two_instances = Some s /\
    ControlDevice s = None /\
    FilterDeviceCollection s = [] /\
    host_step (QueryArrives 4%nat 9%nat) s = None.
Proof. eexists. split; [vm_compute; reflexivity|]. vm_compute. done. Qed.

(** ** Concurrent delivery (C2) *)

Transparent Driver.FilterCreateControlDevice.

(* While a thread holds the lock, no thread can acquire it. *)
Lemma held_lock_blocks_acquire (holder tid : nat) (o : oracle) (s : state) :
  FilterDeviceCollectionLock s = Some holder ->
  wdf_sem tid WdfWaitLockAcquire o s = None.
Proof. intros H. simpl. rewrite H. reflexivity. Qed.

(** *** At most one creation *)

Lemma FilterEvtDeviceAdd_registers (Driver : WDFDRIVER)
  (DeviceInit : PWDFDEVICE_INIT) :
  registers (Driver.FilterEvtDeviceAdd Driver DeviceInit).
Proof.
  unfold Driver.FilterEvtDeviceAdd, Driver.FilterCreateControlDevice,
    Driver.FilterCreateControlDevice_Error.
  simpl.
  repeat first
    [ progress (simpl)
    | split; [reflexivity|]
    | let r := fresh "r" in
      intros r;
      repeat match goal with x : (_ * _)%type |- _ => destruct x end
    | match goal with
      | |- context [NT_SUCCESS ?x] => destruct (NT_SUCCESS x)
      | |- context [Nat.eqb ?x 1] => destruct (Nat.eqb x 1)
      | |- context [match ?x with Some _ => _ | None => _ end] => destruct x
      end
    | exact I ].
Qed.

Section Counting.

Context {A : Type} (f : A -> bool).

Lemma count_if_app (l k : list A) :
  count_if f (l ++ k) = (count_if f l + count_if f k)%nat.
Proof. induction l as [|x l IH]; simpl; [done|]. rewrite IH. lia. Qed.

Lemma count_if_insert (l : list A) (i : nat) (x y : A) :
  l !! i = Some x ->
  (count_if f (<[i:=y]> l) + (if f x then 1 else 0)
   = count_if f l + (if f y then 1 else 0))%nat.
Proof.
  revert i. induction l as [|z l IH]; intros [|i] H; try discriminate.
  - injection H as ->. simpl. lia.
  - simpl in *. specialize (IH i H). lia.
Qed.

Lemma count_if_lookup (l : list A) (i : nat) (x : A) :
  l !! i = Some x -> f x = true -> (1 <= count_if f l)%nat.
Proof.
  revert i. induction l as [|z l IH]; intros [|i] H Hx; try discriminate.
  - injection H as ->. simpl. rewrite Hx. lia.
  - simpl in *. specialize (IH i H Hx). lia.
Qed.

End Counting.

Lemma count_registered (l : list phase) :
  count_if registered l = (count_if checking l + count_if counted l)%nat.
Proof.
  induction l as [|p l IH]; simpl; [done|]. destruct p; simpl; lia.
Qed.

Section Steps.

Context {R : Type} (tid : nat) (c : wdf_call R) (k : R -> prog NTSTATUS)
  (o : oracle) (s s' : state) (r : R).
Hypothesis Hsem : wdf_sem tid c o s = Some (r, s').

Lemma quiet_step :
  quiet c = true ->
  FilterDeviceCollection s' = FilterDeviceCollection s /\
  is_creation_start (Ev c r) = false /\
  collection_add_failed (Ev c r) = false.
Proof using Hsem.
  revert Hsem. clear k. destruct c; simpl; try discriminate; intros H _;
    repeat match type of H with
    | context [match ?x with _ => _ end] => destruct x
    end;
    try discriminate; injection H as <- <-; done.
Qed.

Lemma past_creation_step :
  past_creation (Vis c k) -> quiet c = true /\ past_creation (k r).
Proof. simpl. intros [Hq Hk]. split; [done|apply Hk]. Qed.

Lemma may_create_step :
  may_create (Vis c k) ->
  (quiet c = true /\ may_create (k r)) \/
  (FilterDeviceCollection s' = FilterDeviceCollection s /\
   is_creation_start (Ev c r) = true /\
   collection_add_failed (Ev c r) = false /\
   past_creation (k r)).
Proof using Hsem.
  revert k Hsem. destruct c; simpl; intros k Hsem H;
    try (left; destruct H as [Hq Hk]; split; [done|apply Hk]).
  right. destruct (NT_SUCCESS (o_status o)); injection Hsem as <- <-;
    (split; [done|]); (split; [done|]); (split; [done|]); apply H.
Qed.

Lemma checks_step :
  checks (Vis c k) ->
  (quiet c = true /\ checks (k r)) \/
  (FilterDeviceCollection s' = FilterDeviceCollection s /\
   is_creation_start (Ev c r) = false /\
   collection_add_failed (Ev c r) = false /\
   if Nat.eqb (length (FilterDeviceCollection s)) 1
   then may_create (k r) else past_creation (k r)).
Proof using Hsem.
  revert k Hsem. destruct c; simpl; intros k Hsem H;
    try (left; destruct H as [Hq Hk]; split; [done|apply Hk]).
  right. injection Hsem as <- <-.
  (split; [done|]); (split; [done|]); (split; [done|]); apply H.
Qed.

Lemma registers_step :
  registers (Vis c k) ->
  (quiet c = true /\ registers (k r)) \/
  (is_creation_start (Ev c r) = false /\
   checks (k r) /\
   (collection_add_failed (Ev c r) = false ->
    length (FilterDeviceCollection s') =
      S (length (FilterDeviceCollection s)))).
Proof using Hsem.
  revert k Hsem. destruct c; simpl; intros k Hsem H;
    try (left; destruct H as [Hq Hk]; split; [done|apply Hk]).
  right. split; [done|]. split; [apply H|].
  destruct (NT_SUCCESS (o_status o)) eqn:E; injection Hsem as <- <-;
    rewrite E; simpl; [|done].
  intros _. rewrite length_app. simpl. lia.
Qed.

End Steps.

Lemma invariant_step (tid : nat) (o : oracle) (cfg cfg' : config) :
  thread_step tid o cfg = Some cfg' -> invariant cfg -> invariant cfg'.
Proof.
  unfold thread_step.
  destruct (cfg_pool cfg !! tid) as [[a|R c k]|] eqn:Hp; try discriminate.
  destruct (wdf_sem tid c o (cfg_state cfg)) as [[r s']|] eqn:Hsem;
    [|discriminate].
  intros [= <-] (phases & HF & HI).
  destruct (Forall2_lookup_r _ _ _ _ _ HF Hp) as (p & Hph & Hin).
  pose proof (count_if_insert registered phases tid p) as Nreg.
  pose proof (count_if_insert creating phases tid p) as Ncre.
  pose proof (count_if_insert counted phases tid p) as Ncnt.
  pose proof (count_registered phases) as Npart.
  pose proof (count_if_lookup checking phases tid p Hph) as Nchk.
  pose proof (count_if_lookup creating phases tid p Hph) as Nmay.
  unfold invariant, no_failed_registration, creations in *.
  cbn [cfg_state cfg_pool cfg_trace].
  rewrite existsb_app, !count_if_app. cbn [existsb count_if snd].
  destruct p; cbn [in_phase] in Hin.
  - destruct (registers_step tid c k o _ _ r Hsem Hin)
      as [[Hq Hk]|(Hcr & Hk & Hlen)].
    + destruct (quiet_step tid c o _ _ r Hsem Hq) as (Hcol & Hcr & Hadd).
      exists (<[tid:=Registering]> phases).
      split; [apply Forall2_insert; done|].
      rewrite Hcr, Hadd, Hcol, orb_false_r.
      specialize (Nreg Registering Hph). specialize (Ncre Registering Hph).
      specialize (Ncnt Registering Hph). simpl in *.
      intros H. specialize (HI H). lia.
    + exists (<[tid:=Checking]> phases).
      split; [apply Forall2_insert; done|].
      rewrite Hcr.
      specialize (Nreg Checking Hph). specialize (Ncre Checking Hph).
      specialize (Ncnt Checking Hph). simpl in *.
      intros H. rewrite negb_orb in H. apply andb_prop in H as [H1 H2].
      rewrite orb_false_r in H2. apply negb_true_iff in H2.
      specialize (HI H1). specialize (Hlen H2). lia.
  - destruct (checks_step tid c k o _ _ r Hsem Hin)
      as [[Hq Hk]|(Hcol & Hcr & Hadd & Hk)].
    + destruct (quiet_step tid c o _ _ r Hsem Hq) as (Hcol & Hcr & Hadd).
      exists (<[tid:=Checking]> phases).
      split; [apply Forall2_insert; done|].
      rewrite Hcr, Hadd, Hcol, orb_false_r.
      specialize (Nreg Checking Hph). specialize (Ncre Checking Hph).
      specialize (Ncnt Checking Hph). simpl in *.
      intros H. specialize (HI H). lia.
    + specialize (Nchk eq_refl).
      destruct (Nat.eqb_spec (length (FilterDeviceCollection (cfg_state cfg)))
                  1) as [E|E].
      * exists (<[tid:=MayCreate]> phases).
        split; [apply Forall2_insert; done|].
        rewrite Hcr, Hadd, Hcol, orb_false_r.
        specialize (Nreg MayCreate Hph). specialize (Ncre MayCreate Hph).
        specialize (Ncnt MayCreate Hph). simpl in *.
        intros H. specialize (HI H). lia.
      * exists (<[tid:=PastCreation]> phases).
        split; [apply Forall2_insert; done|].
        rewrite Hcr, Hadd, Hcol, orb_false_r.
        specialize (Nreg PastCreation Hph). specialize (Ncre PastCreation Hph).
        specialize (Ncnt PastCreation Hph). simpl in *.
        intros H. specialize (HI H). lia.
  - specialize (Nmay eq_refl).
    destruct (may_create_step tid c k o _ _ r Hsem Hin)
      as [[Hq Hk]|(Hcol & Hcr & Hadd & Hk)].
    + destruct (quiet_step tid c o _ _ r Hsem Hq) as (Hcol & Hcr & Hadd).
      exists (<[tid:=MayCreate]> phases).
      split; [apply Forall2_insert; done|].
      rewrite Hcr, Hadd, Hcol, orb_false_r.
      specialize (Nreg MayCreate Hph). specialize (Ncre MayCreate Hph).
      specialize (Ncnt MayCreate Hph). simpl in *.
      intros H. specialize (HI H). lia.
    + exists (<[tid:=PastCreation]> phases).
      split; [apply Forall2_insert; done|].
      rewrite Hcr, Hadd, Hcol, orb_false_r.
      specialize (Nreg PastCreation Hph). specialize (Ncre PastCreation Hph).
      specialize (Ncnt PastCreation Hph). simpl in *.
      intros H. specialize (HI H). lia.
  - destruct (past_creation_step c k r Hin) as [Hq Hk].
    destruct (quiet_step tid c o _ _ r Hsem Hq) as (Hcol & Hcr & Hadd).
    exists (<[tid:=PastCreation]> phases).
    split; [apply Forall2_insert; done|].
    rewrite Hcr, Hadd, Hcol, orb_false_r.
    specialize (Nreg PastCreation Hph). specialize (Ncre PastCreation Hph).
    specialize (Ncnt PastCreation Hph). simpl in *.
    intros H. specialize (HI H). lia.
Qed.

Lemma invariant_schedule (sched : list (nat * oracle)) (cfg cfg' : config) :
  schedule_run sched cfg = Some cfg' -> invariant cfg -> invariant cfg'.
Proof.
  revert cfg. induction sched as [|[tid o] sched IH]; simpl; intros cfg H Hi.
  - injection H as <-. exact Hi.
  - destruct (thread_step tid o cfg) as [cfg1|] eqn:E; [|discriminate].
    eapply IH; [exact H|]. eapply invariant_step; eauto.
Qed.

Lemma invariant_appearing (s : state) (inits : list PWDFDEVICE_INIT) :
  FilterDeviceCollection s = [] -> invariant (appearing s inits).
Proof.
  intros Hs. exists (map (fun _ => Registering) inits). split.
  - unfold appearing. simpl. induction inits as [|i inits IH]; simpl;
      constructor; [apply FilterEvtDeviceAdd_registers | exact IH].
  - intros _. simpl. rewrite Hs.
    assert (H : count_if registered (map (fun _ => Registering) inits) = O
                /\ count_if creating (map (fun _ => Registering) inits) = O).
    { induction inits as [|i inits [IH1 IH2]]; simpl; [done|].
      rewrite IH1, IH2. done. }
    destruct H as [-> ->]. simpl. unfold creations. simpl. lia.
Qed.

(* FilterCreateControlDevice holds the lock for the count only: it
   releases it before the first call of the creation protocol and does
   not take it again. *)
Lemma FilterCreateControlDevice_lock_scope
  (Device : WDFDEVICE) (os : list oracle) (s : state) :
  FilterDeviceCollectionLock s = None ->
  exists status s' post,
    run O (Driver.FilterCreateControlDevice Device) os s
      = Some (status, s',
              [Ev WdfWaitLockAcquire tt;
               Ev WdfCollectionGetCount (length (FilterDeviceCollection s));
               Ev WdfWaitLockRelease tt] ++ post) /\
    existsb is_lock_event post = false /\
    (length (FilterDeviceCollection s) <> 1%nat ->
     existsb is_creation_start post = false).
Proof.
  intros Hl.
  unfold Driver.FilterCreateControlDevice,
    Driver.FilterCreateControlDevice_Error.
  simpl. rewrite Hl. simpl.
  destruct (Nat.eqb_spec (length (FilterDeviceCollection s)) 1) as [E1|E1];
    simpl.
  2:{ eexists _, _, _. split; [reflexivity|]. done. }
  split_oracles; eexists _, _, _; (split; [reflexivity|]); done.
Qed.

(** C2: the code, run where the claim fails.  Two instances appear from a
    count of zero and every framework call succeeds; both threads add
    their device to the collection before either counts, both count 2,
    and both callbacks return without the creation protocol having run at
    all, leaving two devices registered and ControlDevice NULL.  The
    comment of FilterCreateControlDevice on its count test reads a count
    above one as "somebody has already created or in the process of
    creating the device". *)
Lemma two_appearing_without_creation :
  FilterDeviceCollection (cfg_state two_appearing) = [] /\
  exists cfg,
    schedule_run both_register_first two_appearing = Some cfg /\
    cfg_pool cfg = [Ret STATUS_SUCCESS; Ret STATUS_SUCCESS] /\
    length (FilterDeviceCollection (cfg_state cfg)) = 2%nat /\
    no_failed_registration (cfg_trace cfg) = true /\
    creations (cfg_trace cfg) = O /\
    creations (cfg_trace cfg) <> 1%nat /\
    ControlDevice (cfg_state cfg) = None.
Proof.
  split; [reflexivity|].
  eexists. split; [vm_compute; reflexivity|]. vm_compute. done.
Qed.

(** FilterCreateControlDevice counts the collection under the lock,
    releases the lock before the creation protocol and runs the protocol
    without it.  When any number of instances appear at once from an
    empty collection and no WdfCollectionAdd fails, the creation protocol
    is started at most once, whatever the interleaving of the calls. *)
Theorem creation_started_at_most_once
  (Device : WDFDEVICE) (os : list oracle) (s : state)
  (inits : list PWDFDEVICE_INIT) (sched : list (nat * oracle))
  (cfg : config) :
  (FilterDeviceCollectionLock s = None ->
   exists status s' post,
     run O (Driver.FilterCreateControlDevice Device) os s
       = Some (status, s',
               [Ev WdfWaitLockAcquire tt;
                Ev WdfCollectionGetCount (length (FilterDeviceCollection s));
                Ev WdfWaitLockRelease tt] ++ post) /\
     existsb is_lock_event post = false /\
     (length (FilterDeviceCollection s) <> 1%nat ->
      existsb is_creation_start post = false)) /\
  (FilterDeviceCollection s = [] ->
   schedule_run sched (appearing s inits) = Some cfg ->
   no_failed_registration (cfg_trace cfg) = true ->
   (creations (cfg_trace cfg) <= 1)%nat).
Proof.
  split; [apply FilterCreateControlDevice_lock_scope|].
  intros Hs Hrun Hok.
  destruct (invariant_schedule sched _ _ Hrun (invariant_appearing s inits Hs))
    as (phases & _ & HI).
  specialize (HI Hok). lia.
Qed.

Lemma creation_started_at_most_once_witness :
  (exists status s' post,
     run O (Driver.FilterCreateControlDevice 3%nat) []
         (cfg_state two_appearing)
       = Some (status, s',
               [Ev WdfWaitLockAcquire tt;
                Ev WdfCollectionGetCount
                  (length (FilterDeviceCollection (cfg_state two_appearing)));
                Ev WdfWaitLockRelease tt] ++ post) /\
     existsb is_lock_event post = false /\
     (length (FilterDeviceCollection (cfg_state two_appearing)) <> 1%nat ->
      existsb is_creation_start post = false)) /\
  (creations (cfg_trace sequential_outcome) <= 1)%nat.
Proof.
  pose proof (creation_started_at_most_once 3%nat []
                (cfg_state two_appearing) [1%nat; 2%nat]
                one_after_the_other sequential_outcome) as [H1 H2].
  split.
  - apply H1. reflexivity.
  - apply H2; [reflexivity | vm_compute; reflexivity | vm_compute; reflexivity].
Defined.

(* Delivered one after the other, the two events run the protocol once. *)
Example one_after_the_other_creates_once :
  cfg_pool sequential_outcome = [Ret STATUS_SUCCESS; Ret STATUS_SUCCESS] /\
  creations (cfg_trace sequential_outcome) = 1%nat /\
  ControlDevice (cfg_state sequential_outcome) = Some 5%nat.
Proof. vm_compute. done. Qed.

Example failed_registration_allows_two_creations :
  exists cfg,
    schedule_run first_registration_fails two_appearing = Some cfg /\
    no_failed_registration (cfg_trace cfg) = false /\
    creations (cfg_trace cfg) = 2%nat.
Proof. eexists. split; [vm_compute; reflexivity|]. vm_compute. done. Qed.

Opaque Driver.FilterCreateControlDevice.

(** ** DriverEntry *)

(** X1: DriverEntry returns a success status exactly when
    WdfCollectionCreate and WdfWaitLockCreate both succeed: a failure of
    WdfDriverCreate is printed and dropped, the status being overwritten
    by the next call, and leaves the driver without a framework driver
    object, hence without FilterEvtDeviceAdd registered. *)
Theorem DriverEntry_drops_WdfDriverCreate_failure
  (DriverObject : PDRIVER_OBJECT) (RegistryPath : PUNICODE_STRING)
  (o_driver o_collection o_lock : oracle) (g : driver_globals) :
  let '(status, g', log) :=
    DriverEntry DriverObject RegistryPath o_driver o_collection o_lock g in
  NT_SUCCESS status
    = NT_SUCCESS (o_status o_collection) && NT_SUCCESS (o_status o_lock) /\
  status = (if NT_SUCCESS (o_status o_collection)
            then o_status o_lock else o_status o_collection) /\
  hDriver g' = (if NT_SUCCESS (o_status o_driver)
                then Some (WDF_DRIVER_CONFIG_INIT FilterEvtDeviceAdd_callback)
                else hDriver g).
Proof.
  unfold DriverEntry, WdfDriverCreate, WdfCollectionCreate, WdfWaitLockCreate.
  destruct (NT_SUCCESS (o_status o_driver)) eqn:Ed;
    destruct (NT_SUCCESS (o_status o_collection)) eqn:Ec;
    destruct (NT_SUCCESS (o_status o_lock)) eqn:El; simpl;
    rewrite ?Ed, ?Ec, ?El; simpl; rewrite ?Ec, ?El; done.
Qed.

(** X2: started at load time, DriverEntry returns success exactly when it
    leaves the globals the callbacks start from (an empty collection, a
    free lock, ControlDevice NULL), and returns a failure exactly when one
    of the two is missing; it tries to create the lock exactly when
    WdfCollectionCreate has succeeded. *)
Theorem DriverEntry_success_iff_ready
  (DriverObject : PDRIVER_OBJECT) (RegistryPath : PUNICODE_STRING)
  (o_driver o_collection o_lock : oracle) :
  let '(status, g', log) :=
    DriverEntry DriverObject RegistryPath o_driver o_collection o_lock
      at_load in
  ready g' = (if NT_SUCCESS status then Some initial_state else None) /\
  existsb is_lock_create log = NT_SUCCESS (o_status o_collection).
Proof.
  unfold DriverEntry, WdfDriverCreate, WdfCollectionCreate, WdfWaitLockCreate.
  destruct (NT_SUCCESS (o_status o_driver)) eqn:Ed;
    destruct (NT_SUCCESS (o_status o_collection)) eqn:Ec;
    destruct (NT_SUCCESS (o_status o_lock)) eqn:El; simpl;
    rewrite ?Ed, ?Ec, ?El; simpl; rewrite ?Ec, ?El; done.
Qed.

(** ** Objects created and released by FilterCreateControlDevice *)

Transparent Driver.FilterCreateControlDevice.

Ltac solve_lookups :=
  repeat first
    [ rewrite lookup_delete_eq | rewrite lookup_insert_eq
    | rewrite lookup_alter_eq
    | rewrite lookup_delete_ne by lia | rewrite lookup_insert_ne by lia
    | rewrite lookup_alter_ne by lia ].

Lemma FilterCreateControlDevice_objects
  (Device : WDFDEVICE) (os : list oracle) (s s' : state) (status : NTSTATUS)
  (tr : trace) :
  FilterDeviceCollectionLock s = None ->
  run O (Driver.FilterCreateControlDevice Device) os s
    = Some (status, s', tr) ->
  FilterDeviceCollection s' = FilterDeviceCollection s /\
  FilterDeviceCollectionLock s' = None /\
  (fw_next s <= fw_next s')%nat /\
  (forall d, (d < fw_next s)%nat -> fw_devices s' !! d = fw_devices s !! d) /\
  (forall d, is_Some (fw_devices s' !! d) ->
     is_Some (fw_devices s !! d) \/
     (ControlDevice s' = Some d /\ (fw_next s <= d < fw_next s')%nat)) /\
  (ControlDevice s' = ControlDevice s \/
   exists c, ControlDevice s' = Some c /\ (fw_next s <= c < fw_next s')%nat /\
             length (FilterDeviceCollection s) = 1%nat /\
             live_control s' c) /\
  (forall p, In p (flat_map init_allocated tr) -> fw_inits s' !! p = None) /\
  (forall d, In d (flat_map device_created tr) ->
     fw_devices s' !! d = None \/ ControlDevice s' = Some d).
Proof.
  intros Hl.
  unfold Driver.FilterCreateControlDevice,
    Driver.FilterCreateControlDevice_Error.
  simpl. rewrite Hl. simpl.
  destruct (Nat.eqb_spec (length (FilterDeviceCollection s)) 1) as [E1|E1];
    simpl.
  2:{ intros [= <- <- <-]. simpl. repeat split; auto; try done; try lia. }
  split_oracles; intros [= <- <- <-]; project_state; simpl.
  all: split; [done|]; split; [done|]; split; [lia|].
  all: split; [intros d Hd; solve_lookups; reflexivity|].
  all: split;
    [intros d Hd;
     destruct (decide (d = S (fw_next s))) as [->|Hne];
       [first [right; split; [reflexivity|lia]
              | revert Hd; solve_lookups; intros [? ?]; discriminate
              | left; revert Hd; solve_lookups; done]
       | left; revert Hd; solve_lookups; done]|].
  all: split;
    [first [left; reflexivity
           | right; eexists; split; [reflexivity|]; split; [lia|];
             split; [exact E1|];
             unfold live_control, fully_initialized; project_state;
             solve_lookups; split; eexists; (split; [reflexivity|]); done]|].
  all: split;
    [intros p Hp; repeat destruct Hp as [<-|Hp]; try done; solve_lookups;
     reflexivity|].
  all: intros d Hd; repeat destruct Hd as [<-|Hd]; try done;
    first [left; solve_lookups; reflexivity | right; reflexivity].
Qed.

Opaque Driver.FilterCreateControlDevice.

Lemma FilterEvtDeviceAdd_objects
  (Driver : WDFDRIVER) (DeviceInit : PWDFDEVICE_INIT) (os : list oracle)
  (s s' : state) (result : NTSTATUS) (tr : trace) :
  FilterDeviceCollectionLock s = None ->
  run O (Driver.FilterEvtDeviceAdd Driver DeviceInit) os s
    = Some (result, s', tr) ->
  FilterDeviceCollectionLock s' = None /\
  (fw_next s <= fw_next s')%nat /\
  (forall x, (x < fw_next s)%nat -> fw_devices s' !! x = fw_devices s !! x) /\
  ((existsb filter_device_create_failed tr = true /\
    FilterDeviceCollection s' = FilterDeviceCollection s /\
    ControlDevice s' = ControlDevice s /\
    fw_devices s' = fw_devices s /\
    existsb is_lock_event tr = false /\
    NT_SUCCESS result = false)
   \/
   (existsb filter_device_create_failed tr = false /\
    (fw_next s < fw_next s')%nat /\
    live_filter s' (fw_next s) /\
    ((FilterDeviceCollection s' = FilterDeviceCollection s /\
      existsb collection_add_failed tr = true) \/
     (FilterDeviceCollection s' = FilterDeviceCollection s ++ [fw_next s] /\
      existsb collection_add_failed tr = false)) /\
    (forall x, is_Some (fw_devices s' !! x) ->
       is_Some (fw_devices s !! x) \/ x = fw_next s \/
       (ControlDevice s' = Some x /\ (fw_next s < x < fw_next s')%nat)) /\
    (ControlDevice s' = ControlDevice s \/
     (length (FilterDeviceCollection s') = 1%nat /\
      exists c, ControlDevice s' = Some c /\
                (fw_next s < c < fw_next s')%nat /\ live_control s' c)))).
Proof.
  intros Hl. run_FilterEvtDeviceAdd Hl.
  all: try (apply FilterCreateControlDevice_objects in Hrun; [|reflexivity];
            destruct Hrun
              as (Ocol & Olock & Onext & Oframe & Olive & Ocd & _ & _)).
  all: intros [= <- <- <-].
  all: repeat match goal with H : _ |- _ => progress project_state_in H end.
  all: project_state.
  all: split; [done|]; split; [lia|].
  all: split;
    [intros x Hx; first [reflexivity
                        | rewrite Oframe by lia; solve_lookups; reflexivity]|].
  (* the device could not be created *)
  5, 10: left; simpl; rewrite ?E, ?E0, ?E1; simpl; repeat split; done.
  all: right.
  all: simpl; rewrite ?existsb_app, ?Hc, ?Ha; simpl;
    rewrite ?E, ?E0, ?E1, ?E2; simpl.
  all: split; [done|].
  all: split; [lia|].
  all: split;
    [unfold live_filter; rewrite Oframe by lia; solve_lookups;
     eexists; split; [reflexivity|reflexivity]|].
  all: split; [rewrite Ocol; first [left; split; [reflexivity|reflexivity]
                                   | right; split; reflexivity]|].
  all: split.
  all: try (intros x Hx; destruct (Olive x Hx) as [Hs|[Hs Hr]];
            [|right; right; split; [exact Hs|lia]];
            destruct (decide (x = fw_next s)) as [->|Hne];
              [right; left; reflexivity|];
            left; revert Hs; solve_lookups; done).
  all: destruct Ocd as [Ocd|(c & Oc & Or & Olen & Olc)];
    [left; exact Ocd|right].
  all: split; [rewrite Ocol; exact Olen|].
  all: exists c; split; [exact Oc|]; split; [lia|exact Olc].
Qed.

(** ** Removal from the collection *)

Lemma collection_remove_absent (x : WDFOBJECT) (l : list WDFOBJECT) :
  x ∉ l -> collection_remove x l = l.
Proof.
  induction l as [|y l IH]; simpl; [done|]. intros H.
  apply not_elem_of_cons in H as [Hne Hl].
  destruct (Nat.eqb_spec y x) as [->|_]; [done|]. by rewrite IH.
Qed.

Lemma collection_remove_last (x : WDFOBJECT) (l : list WDFOBJECT) :
  x ∉ l -> collection_remove x (l ++ [x]) = l.
Proof.
  induction l as [|y l IH]; simpl; intros H.
  - by rewrite Nat.eqb_refl.
  - apply not_elem_of_cons in H as [Hne Hl].
    destruct (Nat.eqb_spec y x) as [->|_]; [done|]. by rewrite IH.
Qed.

Lemma collection_remove_elem_of (x m : WDFOBJECT) (l : list WDFOBJECT) :
  NoDup l -> m ∈ collection_remove x l <-> m ∈ l /\ m <> x.
Proof.
  induction 1 as [|y l Hy Hl IH]; simpl.
  - split; [intros H; inversion H | intros [H _]; inversion H].
  - destruct (Nat.eqb_spec y x) as [->|Hne].
    + rewrite elem_of_cons. split.
      * intros Hm. split; [right; done|]. intros ->. done.
      * intros [[->|Hm] Hx]; done.
    + rewrite !elem_of_cons, IH. split.
      * intros [->|[Hm Hx]]; split; auto.
      * intros [[->|Hm] Hx]; auto.
Qed.

Lemma collection_remove_NoDup (x : WDFOBJECT) (l : list WDFOBJECT) :
  NoDup l -> NoDup (collection_remove x l).
Proof.
  induction 1 as [|y l Hy Hl IH]; simpl; [constructor|].
  destruct (Nat.eqb_spec y x) as [->|Hne]; [done|].
  constructor; [|done]. rewrite collection_remove_elem_of by done.
  intros [H _]. done.
Qed.

Lemma FilterEvtDeviceContextCleanup_objects
  (Device : WDFOBJECT) (os : list oracle) (s : state) :
  FilterDeviceCollectionLock s = None ->
  exists s' tr,
    run O (Driver.FilterEvtDeviceContextCleanup Device) os s
      = Some (tt, s', tr) /\
    FilterDeviceCollectionLock s' = None /\
    fw_next s' = fw_next s /\
    FilterDeviceCollection s' =
      collection_remove Device (FilterDeviceCollection s) /\
    ((length (FilterDeviceCollection s) = 1%nat /\
      ControlDevice s' = None /\
      fw_devices s' =
        match ControlDevice s with
        | Some c => delete c (fw_devices s)
        | None => fw_devices s
        end)
     \/
     (length (FilterDeviceCollection s) <> 1%nat /\
      ControlDevice s' = ControlDevice s /\
      fw_devices s' = fw_devices s)).
Proof.
  intros Hl. unfold Driver.FilterEvtDeviceContextCleanup,
    Driver.FilterDeleteControlDevice.
  simpl. rewrite Hl. simpl.
  destruct (Nat.eqb_spec (length (FilterDeviceCollection s)) 1) as [E|E];
    simpl.
  - destruct (ControlDevice s) as [c|] eqn:Hc; simpl;
      eexists _, _; (split; [reflexivity|]); simpl; rewrite ?Hc;
      repeat split; try done; left; done.
  - eexists _, _; split; [reflexivity|]. simpl.
    repeat split; try done. right; done.
Qed.

(** ** Well-formed states *)

Lemma live_control_frame (s s' : state) (c : WDFDEVICE) :
  fw_devices s' !! c = fw_devices s !! c ->
  live_control s c -> live_control s' c.
Proof.
  unfold live_control, fully_initialized. intros ->. done.
Qed.

Lemma live_filter_frame (s s' : state) (d : WDFDEVICE) :
  fw_devices s' !! d = fw_devices s !! d ->
  live_filter s d -> live_filter s' d.
Proof. unfold live_filter. intros ->. done. Qed.

Lemma live_filter_not_control (s : state) (d : WDFDEVICE) :
  live_filter s d -> live_control s d -> False.
Proof.
  intros (o & Ho & Hc) (_ & o' & Ho' & Hc'). congruence.
Qed.

Lemma well_formed_initial : well_formed initial_state.
Proof.
  unfold well_formed. simpl. split; [done|]. split.
  { intros d [o Ho]. rewrite lookup_empty in Ho. discriminate. }
  split; [constructor|]. split; [intros d Hd; inversion Hd|].
  intros c Hc. discriminate.
Qed.

Lemma well_formed_step (ev : host_event) (s s' : state) :
  well_formed s -> host_step ev s = Some s' -> well_formed s'.
Proof.
  intros (Hl & Hbound & Hnd & Hmem & Hcd).
  destruct ev as [os|Device|target Request]; cbn [host_step prepare_add].
  - destruct (run O (Driver.FilterEvtDeviceAdd O (fw_next s)) os _)
      as [[[result s2] tr]|] eqn:Hrun; [|discriminate].
    intros [= <-].
    apply FilterEvtDeviceAdd_objects in Hrun; [|exact Hl].
    project_state_in Hrun.
    destruct Hrun as (Olock & Onext & Oframe & Ocase).
    unfold well_formed, live_filter, live_control, fully_initialized.
    project_state.
    assert (Hold : forall x, is_Some (fw_devices s !! x) ->
                             fw_devices s2 !! x = fw_devices s !! x).
    { intros x Hx. apply Oframe. specialize (Hbound x Hx). lia. }
    split; [exact Olock|].
    destruct Ocase as [(_ & Ocol & Oc & Odev & _)
                      |(_ & Olt & Onew & Ocol & Olive & Oc)].
    + rewrite Ocol, Oc, Odev. split.
      { intros d Hd. specialize (Hbound d Hd). lia. }
      split; [exact Hnd|]. split; [exact Hmem|exact Hcd].
    + split.
      { intros d Hd. destruct (Olive d Hd) as [Hd'|[->|[_ Hr]]]; [|lia|lia].
        specialize (Hbound d Hd'). lia. }
      assert (Hfresh : S (fw_next s) ∉ FilterDeviceCollection s).
      { intros Hin. destruct (Hmem _ Hin) as (o & Ho & _).
        assert (Hs : is_Some (fw_devices s !! S (fw_next s))) by eauto.
        specialize (Hbound _ Hs). lia. }
      split.
      { destruct Ocol as [[-> _]|[-> _]]; [exact Hnd|].
        apply NoDup_app. split; [exact Hnd|]. split; [|apply NoDup_singleton].
        intros x Hx Hx'. apply list_elem_of_singleton in Hx' as ->. done. }
      split.
      { intros d Hd.
        assert (Hd' : d ∈ FilterDeviceCollection s \/ d = S (fw_next s)).
        { destruct Ocol as [[Ocol _]|[Ocol _]]; rewrite Ocol in Hd;
            [left; done|].
          apply elem_of_app in Hd as [Hd|Hd]; [left; done|right].
          by apply list_elem_of_singleton in Hd. }
        destruct Hd' as [Hd'| ->]; [|exact Onew].
        destruct (Hmem d Hd') as (o & Ho & Hc).
        exists o. rewrite Hold by eauto. done. }
      intros c Hc.
      destruct Oc as [Oc|(_ & c' & Oc & _ & Olc)].
      * rewrite Oc in Hc. destruct (Hcd c Hc) as (Hf & o & Ho & Hcl).
        apply (live_control_frame s); [apply Hold; eauto|]. split; eauto.
      * rewrite Oc in Hc. injection Hc as <-. exact Olc.
  - destruct (fw_devices s !! Device) as [o|] eqn:Ho; [|discriminate].
    destruct (has_cleanup o) eqn:Hclean; [|discriminate].
    destruct (FilterEvtDeviceContextCleanup_objects Device [] s Hl)
      as (s1 & tr & Hrun & Olock & Onext & Ocol & Ocase).
    rewrite Hrun. intros [= <-].
    unfold well_formed. project_state. split; [exact Olock|].
    assert (Hdev : forall x, is_Some (fw_devices s1 !! x) ->
                             is_Some (fw_devices s !! x)).
    { intros x. destruct Ocase as [(_ & _ & ->)|(_ & _ & ->)]; [|done].
      destruct (ControlDevice s) as [c|]; [|done].
      destruct (decide (x = c)) as [->|Hne].
      - rewrite lookup_delete_eq. intros [? ?]; discriminate.
      - by rewrite lookup_delete_ne. }
    split.
    { intros d Hd. rewrite Onext. apply Hbound, Hdev.
      destruct (decide (d = Device)) as [->|Hne].
      - rewrite lookup_delete_eq in Hd. destruct Hd; discriminate.
      - by rewrite lookup_delete_ne in Hd. }
    split; [rewrite Ocol; by apply collection_remove_NoDup|].
    split.
    { intros d Hd. rewrite Ocol in Hd.
      apply collection_remove_elem_of in Hd as [Hd Hne]; [|exact Hnd].
      pose proof (Hmem d Hd) as Hlive.
      apply (live_filter_frame s); [|exact Hlive]. project_state.
      rewrite lookup_delete_ne by done.
      destruct Ocase as [(_ & _ & ->)|(_ & _ & ->)]; [|done].
      destruct (ControlDevice s) as [c|] eqn:Hc; [|done].
      rewrite lookup_delete_ne; [done|]. intros <-.
      exact (live_filter_not_control s c Hlive (Hcd c eq_refl)). }
    intros c Hc.
    destruct Ocase as [(_ & Oc & _)|(_ & Oc & Odev)]; rewrite Oc in Hc;
      [discriminate|].
    pose proof (Hcd c Hc) as Hlc.
    apply (live_control_frame s); [|exact Hlc]. project_state.
    rewrite Odev. rewrite lookup_delete_ne; [done|]. intros <-.
    apply (live_filter_not_control s Device); [|exact Hlc].
    exists o. done.
  - destruct (fw_devices s !! target) as [o|]; [|discriminate].
    destruct (accepts_ioctl o); [|discriminate].
    rewrite FilterEvtIoDeviceControl_run by done. intros [= <-].
    unfold well_formed, live_filter, live_control, fully_initialized.
    project_state. done.
Qed.

Lemma reachable_well_formed (s : state) : reachable s -> well_formed s.
Proof.
  induction 1 as [|s ev s' _ IH Hstep]; [apply well_formed_initial|].
  exact (well_formed_step ev s s' IH Hstep).
Qed.

(** ** Invariants of the collection and of ControlDevice *)

(** X3: in every state reached by events delivered one after the other,
    the collection holds no device twice, and every device in it is a
    live filter device, one whose cleanup callback is
    FilterEvtDeviceContextCleanup. *)
Theorem collection_holds_live_filter_devices (s : state) :
  reachable s ->
  NoDup (FilterDeviceCollection s) /\
  forall d, d ∈ FilterDeviceCollection s -> live_filter s d.
Proof.
  intros Hr. destruct (reachable_well_formed s Hr) as (_ & _ & Hnd & Hmem & _).
  done.
Qed.

Lemma collection_holds_live_filter_devices_witness :
  NoDup (FilterDeviceCollection two_instances) /\
  forall d, d ∈ FilterDeviceCollection two_instances ->
            live_filter two_instances d.
Proof.
  apply (collection_holds_live_filter_devices two_instances).
  apply (reachable_host_run
           [InstanceAppears [reporting 10]; InstanceAppears [reporting 20]]
           initial_state);
    [constructor | vm_compute; reflexivity].
Defined.

(** X4: in every state reached by events delivered one after the other,
    ControlDevice, when it is not NULL, names a live control device that
    has its symbolic link and its queue and has finished initializing,
    and that is not in the collection: the handle never dangles. *)
Theorem ControlDevice_never_dangles (s : state) (c : WDFDEVICE) :
  reachable s ->
  ControlDevice s = Some c ->
  live_control s c /\ c ∉ FilterDeviceCollection s.
Proof.
  intros Hr Hc.
  destruct (reachable_well_formed s Hr) as (_ & _ & _ & Hmem & Hcd).
  split; [exact (Hcd c Hc)|]. intros Hin.
  exact (live_filter_not_control s c (Hmem c Hin) (Hcd c Hc)).
Qed.

Lemma ControlDevice_never_dangles_witness :
  live_control one_instance 4%nat /\
  4%nat ∉ FilterDeviceCollection one_instance.
Proof.
  apply (ControlDevice_never_dangles one_instance 4%nat).
  - apply (reachable_host_run [InstanceAppears [reporting 10]] initial_state);
      [constructor | vm_compute; reflexivity].
  - vm_compute. reflexivity.
Defined.

(** X5: whichever way FilterCreateControlDevice returns, no
    initialization context it allocated is left allocated, and every
    device it created is either deleted or the one stored in
    ControlDevice. *)
Theorem FilterCreateControlDevice_leaks_nothing
  (Device : WDFDEVICE) (os : list oracle) (s s' : state) (status : NTSTATUS)
  (tr : trace) :
  FilterDeviceCollectionLock s = None ->
  run O (Driver.FilterCreateControlDevice Device) os s
    = Some (status, s', tr) ->
  (forall p, In p (flat_map init_allocated tr) -> fw_inits s' !! p = None) /\
  (forall d, In d (flat_map device_created tr) ->
     fw_devices s' !! d = None \/ ControlDevice s' = Some d).
Proof.
  intros Hl Hrun.
  apply FilterCreateControlDevice_objects in Hrun; [|exact Hl].
  destruct Hrun as (_ & _ & _ & _ & _ & _ & Hi & Hd). done.
Qed.

Lemma FilterCreateControlDevice_leaks_nothing_witness :
  exists status s' tr,
    run O (Driver.FilterCreateControlDevice 2%nat) [] before_first_creation
      = Some (status, s', tr) /\
    flat_map init_allocated tr = [3%nat] /\
    flat_map device_created tr = [4%nat] /\
    (forall p, In p (flat_map init_allocated tr) -> fw_inits s' !! p = None) /\
    (forall d, In d (flat_map device_created tr) ->
       fw_devices s' !! d = None \/ ControlDevice s' = Some d).
Proof.
  eexists _, _, _. split; [vm_compute; reflexivity|].
  split; [reflexivity|]. split; [reflexivity|].
  apply (FilterCreateControlDevice_leaks_nothing 2%nat []
           before_first_creation _ STATUS_SUCCESS).
  - reflexivity.
  - vm_compute. reflexivity.
Defined.

(** ** Attaching and detaching *)

(** X6: when an instance has appeared and its device was appended to the
    collection, the disappearance of that instance is accepted and takes
    exactly that device out again: the collection is the one from before
    the instance appeared, the device is deleted, and ControlDevice is
    NULL if the collection was empty before. *)
Theorem attach_then_detach_restores_collection
  (s s1 : state) (os : list oracle) (d : WDFDEVICE) :
  reachable s ->
  host_step (InstanceAppears os) s = Some s1 ->
  FilterDeviceCollection s1 = FilterDeviceCollection s ++ [d] ->
  exists s2,
    host_step (InstanceDisappears d) s1 = Some s2 /\
    FilterDeviceCollection s2 = FilterDeviceCollection s /\
    fw_devices s2 !! d = None /\
    (FilterDeviceCollection s = [] -> ControlDevice s2 = None).
Proof.
  intros Hr Hstep Hcol.
  assert (Hr1 : reachable s1) by (eapply reachable_step; eauto).
  destruct (reachable_well_formed s1 Hr1) as (Hl & _ & Hnd & Hmem & _).
  assert (Hin : d ∈ FilterDeviceCollection s1).
  { rewrite Hcol. apply elem_of_app. right. by apply list_elem_of_singleton. }
  destruct (Hmem d Hin) as (o & Ho & Hclean).
  assert (Hfresh : d ∉ FilterDeviceCollection s).
  { rewrite Hcol in Hnd. apply NoDup_app in Hnd as (_ & Hdis & _).
    intros Hd. apply (Hdis d Hd). by apply list_elem_of_singleton. }
  cbn [host_step]. rewrite Ho, Hclean.
  destruct (FilterEvtDeviceContextCleanup_objects d [] s1 Hl)
    as (s2 & tr & Hrun & _ & _ & Ocol & Ocase).
  rewrite Hrun. eexists. split; [reflexivity|]. project_state.
  split; [rewrite Ocol, Hcol; by apply collection_remove_last|].
  split; [apply lookup_delete_eq|].
  intros Hempty. rewrite Hcol, Hempty in Ocase. simpl in Ocase.
  destruct Ocase as [(_ & Oc & _)|(Hne & _)]; done.
Qed.

Lemma attach_then_detach_restores_collection_witness :
  exists s2,
    host_step (InstanceDisappears 7%nat) two_instances = Some s2 /\
    FilterDeviceCollection s2 = FilterDeviceCollection one_instance /\
    fw_devices s2 !! 7%nat = None /\
    (FilterDeviceCollection one_instance = [] -> ControlDevice s2 = None).
Proof.
  apply (attach_then_detach_restores_collection one_instance two_instances
           [reporting 20] 7%nat).
  - apply (reachable_host_run [InstanceAppears [reporting 10]] initial_state);
      [constructor | vm_compute; reflexivity].
  - vm_compute. reflexivity.
  - vm_compute. reflexivity.
Defined.

(** X7: when the last device of the collection disappears while the
    control device exists, FilterEvtDeviceContextCleanup deletes the
    control device: afterwards the collection is empty, ControlDevice is
    NULL, and the control device and the departed device are the only
    objects gone. *)
Theorem last_cleanup_deletes_control_device
  (s : state) (Device c : WDFDEVICE) :
  reachable s ->
  FilterDeviceCollection s = [Device] ->
  ControlDevice s = Some c ->
  exists s',
    host_step (InstanceDisappears Device) s = Some s' /\
    FilterDeviceCollection s' = [] /\
    ControlDevice s' = None /\
    fw_devices s' = delete Device (delete c (fw_devices s)) /\
    fw_devices s' !! c = None.
Proof.
  intros Hr Hcol Hc.
  destruct (reachable_well_formed s Hr) as (Hl & _ & _ & Hmem & Hcd).
  assert (Hin : Device ∈ FilterDeviceCollection s).
  { rewrite Hcol. by apply list_elem_of_singleton. }
  pose proof (Hmem Device Hin) as Hlive.
  destruct Hlive as (o & Ho & Hclean).
  cbn [host_step]. rewrite Ho, Hclean.
  destruct (FilterEvtDeviceContextCleanup_objects Device [] s Hl)
    as (s1 & tr & Hrun & _ & _ & Ocol & Ocase).
  rewrite Hrun. eexists. split; [reflexivity|]. project_state.
  rewrite Hcol in Ocase, Ocol. simpl in Ocase, Ocol.
  rewrite Nat.eqb_refl in Ocol.
  destruct Ocase as [(_ & Oc & Odev)|(Hne & _)]; [|done].
  rewrite Hc in Odev. rewrite Odev.
  split; [exact Ocol|]. split; [exact Oc|]. split; [reflexivity|].
  rewrite lookup_delete_ne; [apply lookup_delete_eq|].
  intros <-. apply (live_filter_not_control s Device); [|exact (Hcd _ Hc)].
  exists o. done.
Qed.

Lemma last_cleanup_deletes_control_device_witness :
  exists s',
    host_step (InstanceDisappears 2%nat) one_instance = Some s' /\
    FilterDeviceCollection s' = [] /\
    ControlDevice s' = None /\
    fw_devices s' = delete 2%nat (delete 4%nat (fw_devices one_instance)) /\
    fw_devices s' !! 4%nat = None.
Proof.
  apply (last_cleanup_deletes_control_device one_instance 2%nat 4%nat).
  - apply (reachable_host_run [InstanceAppears [reporting 10]] initial_state);
      [constructor | vm_compute; reflexivity].
  - vm_compute. reflexivity.
  - vm_compute. reflexivity.
Defined.

(** X8: FilterEvtDeviceContextCleanup decides on the count alone.  Called
    for a device that is not in the collection while the collection holds
    exactly one device, it deletes the control device and sets
    ControlDevice to NULL, and the collection keeps its one device. *)
Theorem cleanup_of_unregistered_device_deletes_control_device
  (Device : WDFOBJECT) (os : list oracle) (s : state) :
  FilterDeviceCollectionLock s = None ->
  length (FilterDeviceCollection s) = 1%nat ->
  Device ∉ FilterDeviceCollection s ->
  exists s' tr,
    run O (Driver.FilterEvtDeviceContextCleanup Device) os s
      = Some (tt, s', tr) /\
    FilterDeviceCollection s' = FilterDeviceCollection s /\
    ControlDevice s' = None /\
    (forall c, ControlDevice s = Some c -> fw_devices s' !! c = None).
Proof.
  intros Hl Hone Hout.
  destruct (FilterEvtDeviceContextCleanup_objects Device os s Hl)
    as (s' & tr & Hrun & _ & _ & Ocol & Ocase).
  exists s', tr. split; [exact Hrun|].
  split; [rewrite Ocol; by apply collection_remove_absent|].
  destruct Ocase as [(_ & Oc & Odev)|(Hne & _)]; [|done].
  split; [exact Oc|]. intros c Hc. rewrite Odev, Hc. apply lookup_delete_eq.
Qed.

Lemma cleanup_of_unregistered_device_deletes_control_device_witness :
  reachable unregistered_then_registered /\
  FilterDeviceCollection unregistered_then_registered = [4%nat] /\
  ControlDevice unregistered_then_registered = Some 6%nat /\
  exists s' tr,
    run O (Driver.FilterEvtDeviceContextCleanup 2%nat) []
        unregistered_then_registered
      = Some (tt, s', tr) /\
    FilterDeviceCollection s' =
      FilterDeviceCollection unregistered_then_registered /\
    ControlDevice s' = None /\
    (forall c, ControlDevice unregistered_then_registered = Some c ->
               fw_devices s' !! c = None).
Proof.
  split.
  { apply (reachable_host_run
             [InstanceAppears collection_add_fails;
              InstanceAppears [reporting 20]] initial_state);
      [constructor | vm_compute; reflexivity]. }
  split; [vm_compute; reflexivity|]. split; [vm_compute; reflexivity|].
  apply (cleanup_of_unregistered_device_deletes_control_device 2%nat []
           unregistered_then_registered).
  - reflexivity.
  - vm_compute. reflexivity.
  - vm_compute. intros H. apply list_elem_of_singleton in H. discriminate.
Defined.

(** X9: when WdfDeviceCreate fails for the filter device,
    FilterEvtDeviceAdd returns a failure status having changed neither the
    collection, nor ControlDevice, nor the set of device objects, and
    without having touched the lock. *)
Theorem FilterEvtDeviceAdd_failure_changes_nothing
  (Driver : WDFDRIVER) (DeviceInit : PWDFDEVICE_INIT) (os : list oracle)
  (s s' : state) (result : NTSTATUS) (tr : trace) :
  FilterDeviceCollectionLock s = None ->
  run O (Driver.FilterEvtDeviceAdd Driver DeviceInit) os s
    = Some (result, s', tr) ->
  existsb filter_device_create_failed tr = true ->
  NT_SUCCESS result = false /\
  FilterDeviceCollection s' = FilterDeviceCollection s /\
  ControlDevice s' = ControlDevice s /\
  fw_devices s' = fw_devices s /\
  existsb is_lock_event tr = false.
Proof.
  intros Hl Hrun Hf.
  apply FilterEvtDeviceAdd_objects in Hrun; [|exact Hl].
  destruct Hrun as (_ & _ & _ & [(_ & H1 & H2 & H3 & H4 & H5)|(Hn & _)]);
    [done|congruence].
Qed.

Lemma FilterEvtDeviceAdd_failure_changes_nothing_witness :
  exists result s' tr,
    run O (Driver.FilterEvtDeviceAdd O 1%nat) device_create_fails first_attach
      = Some (result, s', tr) /\
    result = STATUS_INSUFFICIENT_RESOURCES /\
    NT_SUCCESS result = false /\
    FilterDeviceCollection s' = FilterDeviceCollection first_attach /\
    ControlDevice s' = ControlDevice first_attach /\
    fw_devices s' = fw_devices first_attach /\
    existsb is_lock_event tr = false.
Proof.
  eexists _, _, _. split; [vm_compute; reflexivity|].
  split; [reflexivity|].
  eapply (FilterEvtDeviceAdd_failure_changes_nothing O 1%nat
            device_create_fails first_attach).
  - reflexivity.
  - vm_compute. reflexivity.
  - reflexivity.
Defined.

(** X10: an instance whose device is appended to a collection that was
    not empty leaves ControlDevice as it was: only the instance that
    makes the count 1 can create the control device. *)
Theorem later_instance_keeps_ControlDevice
  (Driver : WDFDRIVER) (DeviceInit : PWDFDEVICE_INIT) (os : list oracle)
  (s s' : state) (result : NTSTATUS) (tr : trace) :
  FilterDeviceCollectionLock s = None ->
  FilterDeviceCollection s <> [] ->
  run O (Driver.FilterEvtDeviceAdd Driver DeviceInit) os s
    = Some (result, s', tr) ->
  existsb collection_add_failed tr = false ->
  ControlDevice s' = ControlDevice s.
Proof.
  intros Hl Hne Hrun Ha.
  apply FilterEvtDeviceAdd_objects in Hrun; [|exact Hl].
  destruct Hrun as (_ & _ & _ & [(_ & _ & H2 & _)|(_ & _ & _ & Ocol & _ & Oc)]);
    [done|].
  destruct Oc as [Oc|(Olen & _)]; [done|].
  destruct Ocol as [[_ Hf]|[Ocol _]]; [congruence|].
  rewrite Ocol, length_app in Olen. simpl in Olen.
  destruct (FilterDeviceCollection s); [done|simpl in Olen; lia].
Qed.

Lemma later_instance_keeps_ControlDevice_witness :
  exists result s' tr,
    run O (Driver.FilterEvtDeviceAdd O 6%nat) [reporting 20]
        (snd (prepare_add one_instance))
      = Some (result, s', tr) /\
    FilterDeviceCollection s' = [2%nat; 7%nat] /\
    ControlDevice s' = ControlDevice (snd (prepare_add one_instance)).
Proof.
  eexists _, _, _. split; [vm_compute; reflexivity|].
  split; [reflexivity|].
  eapply (later_instance_keeps_ControlDevice O 6%nat [reporting 20]
            (snd (prepare_add one_instance)) _ STATUS_SUCCESS).
  - reflexivity.
  - vm_compute. discriminate.
  - vm_compute. reflexivity.
  - reflexivity.
Defined.

(** ** Callbacks return *)

(** X11: in every state reached by events delivered one after the other,
    the callbacks return: FilterEvtDeviceAdd whatever the framework
    answers, FilterEvtDeviceContextCleanup on every device of the
    collection, and FilterEvtIoDeviceControl on the device ControlDevice
    names, which has a queue that dispatches to it. *)
Theorem callbacks_return_in_reachable_states (s : state) :
  reachable s ->
  (forall os, is_Some (host_step (InstanceAppears os) s)) /\
  (forall d, d ∈ FilterDeviceCollection s ->
             is_Some (host_step (InstanceDisappears d) s)) /\
  (forall c Request, ControlDevice s = Some c ->
                     is_Some (host_step (QueryArrives c Request) s)).
Proof.
  intros Hr.
  destruct (reachable_well_formed s Hr) as (Hl & _ & _ & Hmem & Hcd).
  split; [|split].
  - intros os. cbn [host_step prepare_add].
    destruct (FilterEvtDeviceAdd_globals O (fw_next s) os
                (with_next (S (fw_next s))
                   (with_inits (<[fw_next s:=fdo_init]> (fw_inits s)) s)) Hl)
      as (status & s2 & tr & Hrun & _).
    rewrite Hrun. eauto.
  - intros d Hd. destruct (Hmem d Hd) as (o & Ho & Hclean).
    cbn [host_step]. rewrite Ho, Hclean.
    destruct (FilterEvtDeviceContextCleanup_run d [] s Hl)
      as (s1 & Hrun & _).
    rewrite Hrun. eauto.
  - intros c Request Hc.
    destruct (Hcd c Hc) as ((o & Ho & Hinit & _ & Hq) & _).
    cbn [host_step]. rewrite Ho. unfold accepts_ioctl.
    rewrite Hinit, Hq.
    cbn [negb andb control_queue_config EvtIoDeviceControl].
    rewrite FilterEvtIoDeviceControl_run by done. eauto.
Qed.

Lemma callbacks_return_in_reachable_states_witness :
  (forall os, is_Some (host_step (InstanceAppears os) one_instance)) /\
  (forall d, d ∈ FilterDeviceCollection one_instance ->
             is_Some (host_step (InstanceDisappears d) one_instance)) /\
  (forall c Request, ControlDevice one_instance = Some c ->
                     is_Some (host_step (QueryArrives c Request) one_instance)).
Proof.
  apply (callbacks_return_in_reachable_states one_instance).
  apply (reachable_host_run [InstanceAppears [reporting 10]] initial_state);
    [constructor | vm_compute; reflexivity].
Defined.

(** ** Lock discipline *)

Transparent Driver.FilterCreateControlDevice.

Lemma disciplined_to_bind {A B : Type} (exit mid held : bool) (t : prog A)
  (f : A -> prog B) :
  disciplined_to mid held t ->
  (forall a, disciplined_to exit mid (f a)) ->
  disciplined_to exit held (bind t f).
Proof.
  revert held. induction t as [a|R c k IH]; intros held Ht Hf; simpl in *.
  - subst. apply Hf.
  - destruct (access_of c); try destruct Ht as [Hh Ht];
      try split; try done; intros r; apply IH; auto.
Qed.

Lemma disciplined_to_for_loop (n i : nat) (body : nat -> prog unit) :
  (forall j, disciplined_to true true (body j)) ->
  disciplined_to true true (for_loop n i body).
Proof.
  intros Hbody. revert i. induction n as [|n IH]; intros i; simpl; [done|].
  apply (disciplined_to_bind true true); [apply Hbody|]. intros _. apply IH.
Qed.

Ltac walk_program :=
  repeat first
    [ progress (simpl)
    | split; [reflexivity|]
    | let r := fresh "r" in
      intros r;
      repeat match goal with x : (_ * _)%type |- _ => destruct x end
    | match goal with
      | |- context [NT_SUCCESS ?x] => destruct (NT_SUCCESS x)
      | |- context [Nat.eqb ?x 1] => destruct (Nat.eqb x 1)
      | |- context [match ?x with Some _ => _ | None => _ end] => destruct x
      end
    | reflexivity ].

Lemma FilterEvtDeviceAdd_disciplined (Driver : WDFDRIVER)
  (DeviceInit : PWDFDEVICE_INIT) :
  disciplined (Driver.FilterEvtDeviceAdd Driver DeviceInit).
Proof.
  unfold disciplined, Driver.FilterEvtDeviceAdd,
    Driver.FilterCreateControlDevice, Driver.FilterCreateControlDevice_Error.
  walk_program.
Qed.

Lemma FilterEvtDeviceContextCleanup_disciplined (Device : WDFOBJECT) :
  disciplined (Driver.FilterEvtDeviceContextCleanup Device).
Proof.
  unfold disciplined, Driver.FilterEvtDeviceContextCleanup,
    Driver.FilterDeleteControlDevice.
  walk_program.
Qed.

Lemma FilterEvtIoDeviceControl_disciplined
  (Queue : WDFQUEUE) (Request : WDFREQUEST)
  (OutputBufferLength InputBufferLength : Z) (IoControlCode : ULONG) :
  disciplined (Driver.FilterEvtIoDeviceControl Queue Request
                 OutputBufferLength InputBufferLength IoControlCode).
Proof.
  unfold disciplined, Driver.FilterEvtIoDeviceControl.
  cbn [mbind prog_bind bind call disciplined_to access_of].
  intros _. split; [done|]. intros _. split; [done|]. intros n.
  apply (disciplined_to_bind false true).
  - apply disciplined_to_for_loop. intros j. simpl.
    split; [done|]. intros h. intros v. intros _. reflexivity.
  - intros _. simpl. split; [done|]. intros _ _. reflexivity.
Qed.

Lemma thread_of_disciplined (i : invocation) : disciplined (thread_of i).
Proof.
  destruct i; cbn [thread_of].
  - apply FilterEvtDeviceAdd_disciplined.
  - apply (disciplined_to_bind false false);
      [apply FilterEvtDeviceContextCleanup_disciplined | intros _; reflexivity].
  - apply (disciplined_to_bind false false);
      [apply FilterEvtIoDeviceControl_disciplined | intros _; reflexivity].
Qed.

Lemma lock_invariant_step (tid : nat) (o : oracle) (cfg cfg' : config) :
  thread_step tid o cfg = Some cfg' ->
  lock_invariant cfg -> lock_invariant cfg'.
Proof.
  unfold thread_step.
  destruct (cfg_pool cfg !! tid) as [[a|R c k]|] eqn:Hp; try discriminate.
  destruct (wdf_sem tid c o (cfg_state cfg)) as [[r s']|] eqn:Hsem;
    [|discriminate].
  intros [= <-] Hinv i t. cbn [cfg_pool cfg_state].
  pose proof (Hinv tid _ Hp) as Htid. cbn [disciplined_to] in Htid.
  assert (Hlock :
    match access_of c with
    | LockAcquire =>
        FilterDeviceCollectionLock (cfg_state cfg) = None /\
        FilterDeviceCollectionLock s' = Some tid
    | LockRelease =>
        FilterDeviceCollectionLock (cfg_state cfg) = Some tid /\
        FilterDeviceCollectionLock s' = None
    | _ => FilterDeviceCollectionLock s'
           = FilterDeviceCollectionLock (cfg_state cfg)
    end).
  { clear Htid Hp Hinv. revert Hsem. clear k.
    destruct c; simpl; intros H;
      repeat match type of H with
      | context [match ?x with _ => _ end] => destruct x eqn:?
      end;
      try discriminate; injection H as <- <-; simpl; try done.
    split; [|done]. f_equal. by apply Nat.eqb_eq. }
  destruct (decide (i = tid)) as [->|Hne].
  - rewrite list_lookup_insert_eq by (eapply lookup_lt_Some; eauto).
    intros [= <-].
    destruct (access_of c).
    + destruct Hlock as [_ ->]. rewrite bool_decide_eq_true_2 by done.
      apply Htid.
    + destruct Hlock as [_ ->]. rewrite bool_decide_eq_false_2 by done.
      apply Htid.
    + rewrite Hlock. apply Htid.
    + rewrite Hlock. apply Htid.
  - rewrite list_lookup_insert_ne by done. intros Hi.
    specialize (Hinv i t Hi).
    destruct (access_of c).
    + destruct Hlock as [Hfree ->]. rewrite Hfree in Hinv.
      rewrite bool_decide_eq_false_2 in Hinv by done.
      rewrite bool_decide_eq_false_2; [done|]. intros [= ->]. done.
    + destruct Hlock as [Hheld ->]. rewrite Hheld in Hinv.
      rewrite bool_decide_eq_false_2 in Hinv by (intros [= ->]; done).
      rewrite bool_decide_eq_false_2 by done. done.
    + rewrite Hlock. done.
    + rewrite Hlock. done.
Qed.

Lemma lock_invariant_schedule (sched : list (nat * oracle))
  (cfg cfg' : config) :
  schedule_run sched cfg = Some cfg' ->
  lock_invariant cfg -> lock_invariant cfg'.
Proof.
  revert cfg. induction sched as [|[tid o] sched IH]; simpl; intros cfg H Hi.
  - injection H as <-. exact Hi.
  - destruct (thread_step tid o cfg) as [cfg1|] eqn:E; [|discriminate].
    eapply IH; [exact H|]. eapply lock_invariant_step; eauto.
Qed.

(** X12: in every interleaving of the driver's callbacks started with the
    lock free, a thread whose next call reads or changes the collection,
    or releases the lock, holds the lock; a thread whose next call
    acquires the lock does not hold it; and a thread whose callback has
    returned does not hold it. *)
Theorem collection_accessed_under_lock
  (s : state) (invocations : list invocation) (sched : list (nat * oracle))
  (cfg : config) (tid : nat) (t : prog NTSTATUS) :
  FilterDeviceCollectionLock s = None ->
  schedule_run sched (running s invocations) = Some cfg ->
  cfg_pool cfg !! tid = Some t ->
  lock_as_expected (cfg_state cfg) tid t.
Proof.
  intros Hl Hrun Ht.
  assert (Hinit : lock_invariant (running s invocations)).
  { intros i t' Hi. cbn [running cfg_pool cfg_state] in *. rewrite Hl.
    rewrite bool_decide_eq_false_2 by done.
    rewrite list_lookup_fmap in Hi.
    destruct (invocations !! i) as [inv|]; [|discriminate].
    injection Hi as <-. apply thread_of_disciplined. }
  pose proof (lock_invariant_schedule sched _ _ Hrun Hinit tid t Ht) as H.
  unfold lock_as_expected. destruct t as [a|R c k]; simpl in *.
  - intros Heq. rewrite bool_decide_eq_true_2 in H by done. discriminate.
  - destruct (access_of c).
    + destruct H as [H _]. by apply bool_decide_eq_false in H.
    + destruct H as [H _]. by apply bool_decide_eq_true in H.
    + destruct H as [H _]. by apply bool_decide_eq_true in H.
    + done.
Qed.

Lemma collection_accessed_under_lock_witness :
  schedule_run interleaved three_at_once = Some after_interleaving /\
  FilterDeviceCollectionLock (cfg_state after_interleaving) = Some O /\
  forall tid t,
    cfg_pool after_interleaving !! tid = Some t ->
    lock_as_expected (cfg_state after_interleaving) tid t.
Proof.
  split; [vm_compute; reflexivity|]. split; [vm_compute; reflexivity|].
  intros tid t.
  apply (collection_accessed_under_lock (snd (prepare_add two_instances))
           [InvokeCleanup 2%nat; InvokeIoDeviceControl 5%nat 9%nat 0 0 0;
            InvokeDeviceAdd O 8%nat] interleaved after_interleaving tid t).
  - reflexivity.
  - vm_compute. reflexivity.
Defined.

(** *** Indices stay within the collection *)

Lemma in_range_bind_assoc {A B C : Type} (held : option nat) (t : prog A)
  (f : A -> prog B) (g : B -> prog C) :
  in_range held (bind t (fun x => bind (f x) g)) ->
  in_range held (bind (bind t f) g).
Proof.
  revert held. induction t as [a|R c k IH]; intros held; simpl; [done|].
  revert k IH.
  destruct c; intros k IH H; try destruct held; try done;
    try (destruct H as [H1 H2]; split; [done|]); intros; apply IH; auto.
Qed.

Lemma in_range_enumeration {A : Type} (len m i : nat) (g : unit -> prog A) :
  (i + m <= len)%nat ->
  in_range (Some len) (g tt) ->
  in_range (Some len)
    (bind
       (for_loop m i (fun i =>
          hFilterDevice ← call (WdfCollectionGetItem i);
          SerialNo ← call (FilterGetData_SerialNo hFilterDevice);
          call (KdPrint "Serial No: %d\n" [SerialNo])))
       g).
Proof.
  revert i. induction m as [|m IH]; intros i Hle Hg; cbn [for_loop bind].
  - exact Hg.
  - apply in_range_bind_assoc. simpl.
    split; [lia|]. intros d. split; [eauto|]. intros v _.
    apply IH; [lia | exact Hg].
Qed.

Ltac walk_in_range :=
  repeat first
    [ progress (simpl)
    | split; [solve [eauto | lia]|]
    | let r := fresh "r" in
      intros r;
      repeat match goal with x : (_ * _)%type |- _ => destruct x end
    | match goal with
      | |- context [NT_SUCCESS ?x] => destruct (NT_SUCCESS x)
      | |- context [Nat.eqb ?x 1] => destruct (Nat.eqb x 1)
      | |- context [match ?x with Some _ => _ | None => _ end] => destruct x
      end
    | exact I ].

Lemma thread_of_in_range (i : invocation) : in_range None (thread_of i).
Proof.
  destruct i; cbn [thread_of].
  - unfold Driver.FilterEvtDeviceAdd, Driver.FilterCreateControlDevice,
      Driver.FilterCreateControlDevice_Error.
    walk_in_range.
  - unfold Driver.FilterEvtDeviceContextCleanup,
      Driver.FilterDeleteControlDevice.
    walk_in_range.
  - unfold Driver.FilterEvtIoDeviceControl.
    cbn [mbind prog_bind bind call in_range].
    intros _ len. apply in_range_bind_assoc.
    apply in_range_enumeration; [lia|]. simpl. done.
Qed.

Lemma wdf_sem_lock_collection {R : Type} (tid : nat) (c : wdf_call R)
  (o : oracle) (s s' : state) (r : R) :
  wdf_sem tid c o s = Some (r, s') ->
  match c in wdf_call R return R -> Prop with
  | WdfWaitLockAcquire => fun _ =>
      FilterDeviceCollectionLock s = None /\
      FilterDeviceCollectionLock s' = Some tid /\
      FilterDeviceCollection s' = FilterDeviceCollection s
  | WdfWaitLockRelease => fun _ =>
      FilterDeviceCollectionLock s = Some tid /\
      FilterDeviceCollectionLock s' = None /\
      FilterDeviceCollection s' = FilterDeviceCollection s
  | WdfCollectionGetCount => fun r =>
      r = length (FilterDeviceCollection s) /\
      FilterDeviceCollectionLock s' = FilterDeviceCollectionLock s /\
      FilterDeviceCollection s' = FilterDeviceCollection s
  | WdfCollectionGetItem i => fun r =>
      r = FilterDeviceCollection s !! i /\
      FilterDeviceCollectionLock s' = FilterDeviceCollectionLock s /\
      FilterDeviceCollection s' = FilterDeviceCollection s
  | WdfCollectionAdd _ => fun _ =>
      FilterDeviceCollectionLock s' = FilterDeviceCollectionLock s
  | WdfCollectionRemove _ => fun _ =>
      FilterDeviceCollectionLock s' = FilterDeviceCollectionLock s
  | _ => fun _ =>
      FilterDeviceCollectionLock s' = FilterDeviceCollectionLock s /\
      FilterDeviceCollection s' = FilterDeviceCollection s
  end r.
Proof.
  revert r. destruct c; simpl; intros r H;
    repeat match type of H with
    | context [match ?x with _ => _ end] => destruct x eqn:?
    end;
    try discriminate; injection H as <- <-; simpl; try done.
  split; [|done]. f_equal. by apply Nat.eqb_eq.
Qed.

Lemma range_invariant_step (tid : nat) (o : oracle) (cfg cfg' : config) :
  thread_step tid o cfg = Some cfg' ->
  range_invariant cfg -> range_invariant cfg'.
Proof.
  unfold thread_step.
  destruct (cfg_pool cfg !! tid) as [[a|R c k]|] eqn:Hp; try discriminate.
  destruct (wdf_sem tid c o (cfg_state cfg)) as [[r s']|] eqn:Hsem;
    [|discriminate].
  intros [= <-] Hinv i t. cbn [cfg_pool cfg_state].
  pose proof (Hinv tid _ Hp) as Htid. cbn [in_range] in Htid.
  apply wdf_sem_lock_collection in Hsem.
  destruct (decide (i = tid)) as [->|Hne].
  - rewrite list_lookup_insert_eq by (eapply lookup_lt_Some; eauto).
    intros [= <-]. clear Hinv Hp. revert r k Htid Hsem.
    destruct c; intros r k Htid Hsem;
      try match goal with u : unit |- _ => destruct u end;
      try (rewrite (proj1 Hsem), (proj2 Hsem);
           first [apply Htid | apply (proj2 Htid)]).
    + destruct Hsem as (_ & -> & ->).
      rewrite bool_decide_eq_true_2 by done. apply Htid.
    + destruct Hsem as (_ & -> & ->).
      rewrite bool_decide_eq_false_2 by done. apply Htid.
    + rewrite Hsem.
      destruct (bool_decide _); [apply Htid | done].
    + destruct Hsem as (-> & -> & ->).
      destruct (bool_decide _); [apply Htid | done].
    + destruct Hsem as (-> & -> & ->).
      destruct (bool_decide _); [|done]. destruct Htid as [Hlt Htid].
      destruct (lookup_lt_is_Some_2 _ _ Hlt) as [d ->]. apply Htid.
    + rewrite Hsem.
      destruct (bool_decide _); [apply Htid | done].
  - rewrite list_lookup_insert_ne by done. intros Hi.
    specialize (Hinv i t Hi). clear Hp. revert r k Htid Hsem.
    destruct c; intros r k Htid Hsem;
      try (rewrite (proj1 Hsem), (proj2 Hsem); exact Hinv).
    + destruct Hsem as (Hfree & -> & ->). rewrite Hfree in Hinv.
      rewrite bool_decide_eq_false_2 in Hinv by done.
      rewrite bool_decide_eq_false_2 by (intros [= ->]; done). done.
    + destruct Hsem as (Hheld & -> & ->). rewrite Hheld in Hinv.
      rewrite bool_decide_eq_false_2 in Hinv by (intros [= ->]; done).
      rewrite bool_decide_eq_false_2 by done. done.
    + rewrite Hsem. destruct (bool_decide_reflect
        (FilterDeviceCollectionLock (cfg_state cfg) = Some tid)) as [Hh|Hh];
        [|done].
      rewrite Hh in *.
      rewrite bool_decide_eq_false_2 in Hinv by (intros [= ->]; done).
      rewrite bool_decide_eq_false_2 by (intros [= ->]; done). done.
    + destruct Hsem as (-> & -> & ->). exact Hinv.
    + destruct Hsem as (-> & -> & ->). exact Hinv.
    + rewrite Hsem. destruct (bool_decide_reflect
        (FilterDeviceCollectionLock (cfg_state cfg) = Some tid)) as [Hh|Hh];
        [|done].
      rewrite Hh in *.
      rewrite bool_decide_eq_false_2 in Hinv by (intros [= ->]; done).
      rewrite bool_decide_eq_false_2 by (intros [= ->]; done). done.
Qed.

Lemma range_invariant_schedule (sched : list (nat * oracle))
  (cfg cfg' : config) :
  schedule_run sched cfg = Some cfg' ->
  range_invariant cfg -> range_invariant cfg'.
Proof.
  revert cfg. induction sched as [|[tid o] sched IH]; simpl; intros cfg H Hi.
  - injection H as <-. exact Hi.
  - destruct (thread_step tid o cfg) as [cfg1|] eqn:E; [|discriminate].
    eapply IH; [exact H|]. eapply range_invariant_step; eauto.
Qed.

(** X13: in every interleaving of the driver's callbacks started with the
    lock free, every index a thread is about to pass to
    WdfCollectionGetItem is below the number of items the collection holds
    at that moment, and every handle whose context a thread is about to
    read is not NULL. *)
Theorem enumeration_stays_in_bounds
  (s : state) (invocations : list invocation) (sched : list (nat * oracle))
  (cfg : config) (tid : nat) (t : prog NTSTATUS) :
  FilterDeviceCollectionLock s = None ->
  schedule_run sched (running s invocations) = Some cfg ->
  cfg_pool cfg !! tid = Some t ->
  next_call_in_bounds (cfg_state cfg) t.
Proof.
  intros Hl Hrun Ht.
  assert (Hinit : range_invariant (running s invocations)).
  { intros i t' Hi. cbn [running cfg_pool cfg_state] in *. rewrite Hl.
    rewrite bool_decide_eq_false_2 by done.
    rewrite list_lookup_fmap in Hi.
    destruct (invocations !! i) as [inv|]; [|discriminate].
    injection Hi as <-. apply thread_of_in_range. }
  pose proof (range_invariant_schedule sched _ _ Hrun Hinit tid t Ht) as H.
  unfold next_call_in_bounds. destruct t as [a|R c k]; [done|].
  cbn [in_range] in H. clear Ht. revert k H.
  destruct c; intros k H; try done.
  - apply H.
  - destruct (bool_decide _); [apply H | done].
Qed.

Lemma enumeration_stays_in_bounds_witness :
  schedule_run enumerating three_at_once = Some during_enumeration /\
  match cfg_pool during_enumeration !! 1%nat with
  | Some (Vis (WdfCollectionGetItem i) _) => i = O
  | _ => False
  end /\
  forall tid t,
    cfg_pool during_enumeration !! tid = Some t ->
    next_call_in_bounds (cfg_state during_enumeration) t.
Proof.
  split; [vm_compute; reflexivity|]. split; [vm_compute; reflexivity|].
  intros tid t.
  apply (enumeration_stays_in_bounds (snd (prepare_add two_instances))
           [InvokeCleanup 2%nat; InvokeIoDeviceControl 5%nat 9%nat 0 0 0;
            InvokeDeviceAdd O 8%nat] enumerating during_enumeration tid t).
  - reflexivity.
  - vm_compute. reflexivity.
Defined.

Opaque Driver.FilterCreateControlDevice.
